(** * BigNumber: a shallow embedding of [src/lib/bigint.ts]

    The class [BigNumber] keeps a sign flag and two pieces of decimal text
    (the integer digits [_value] and the fraction digits [_decimal]).  Every
    operation goes through JavaScript strings, [BigInt] and [Number]; the
    first part of this file models the few built-ins the class relies on,
    the second part embeds the class method by method, the third part states
    and proves the properties. *)

From Stdlib Require Import ZArith Bool List Lia.
From Stdlib Require Import Strings.Ascii Strings.String Numbers.DecimalString.
Import ListNotations.

Open Scope bool_scope.
Open Scope string_scope.
Open Scope Z_scope.

(* ------------------------------------------------------------------ *)
(** ** Exceptions *)

(** The exceptions the class can raise.  The four [Err*] constructors are
    the [Error(...)] objects built in the source, one per message. *)
Inductive error : Type :=
| JsSyntaxError        (* BigInt(text) on text that is no integer literal *)
| ErrUnrecognizedFormat (* "BigNumber Error: Unrecognized number format." *)
| ErrTooBig            (* "BigNumber Error: You cannot have a BigNumber bigger than 1e36." *)
| ErrTooSmall          (* "BigNumber Error: You cannot have a BigNumber smaller than -1e36." *)
| ErrCannotParse       (* "BigNumber Error: The given string cannot be parsed to a BigNumber." *)
| CallDepthExhausted.  (* the fuel of [add_fuel] ran out; shown unreachable below *)

Inductive result (A : Type) : Type :=
| Ok (a : A)
| Throw (e : error).
Arguments Ok {A} a.
Arguments Throw {A} e.

Definition bind {A B : Type} (r : result A) (k : A -> result B) : result B :=
  match r with
  | Ok a => k a
  | Throw e => Throw e
  end.

Notation "x <- r ;; k" := (bind r (fun x => k))
  (at level 61, r at next level, right associativity).

Definition is_ok {A : Type} (r : result A) : bool :=
  match r with Ok _ => true | Throw _ => false end.

(** The spec's RangeError covers both bound messages. *)
Definition is_range_error (e : error) : bool :=
  match e with ErrTooBig | ErrTooSmall => true | _ => false end.

(* ------------------------------------------------------------------ *)
(** ** JavaScript strings

    A string is a sequence of code units; [ascii] stands for one code unit.
    All text the class inspects is ASCII (digits, ".", ",", "-", "e"). *)

Module Js.

Definition is_digit (c : ascii) : bool :=
  ((48 <=? nat_of_ascii c) && (nat_of_ascii c <=? 57))%nat.

Definition digit_val (c : ascii) : Z := Z.of_nat (nat_of_ascii c) - 48.

(** [s.includes(c)] for a one-character needle. *)
Fixpoint includes (c : ascii) (s : string) : bool :=
  match s with
  | EmptyString => false
  | String a r => Ascii.eqb a c || includes c r
  end.

(** [s.split(c)] for a one-character separator: never the empty array. *)
Fixpoint split (sep : ascii) (s : string) : list string :=
  match s with
  | EmptyString => [EmptyString]
  | String a r =>
      if Ascii.eqb a sep then EmptyString :: split sep r
      else match split sep r with
           | h :: t => String a h :: t
           | [] => [String a EmptyString]
           end
  end.

(** [s.split("")]: one element per code unit. *)
Fixpoint chars (s : string) : list string :=
  match s with
  | EmptyString => []
  | String a r => String a EmptyString :: chars r
  end.

(** [array.join("")]. *)
Definition join (l : list string) : string := String.concat EmptyString l.

(** [s.replace(c, by)] with a string pattern: the first occurrence only. *)
Fixpoint replace (c : ascii) (by_ : string) (s : string) : string :=
  match s with
  | EmptyString => EmptyString
  | String a r => if Ascii.eqb a c then by_ ++ r else String a (replace c by_ r)
  end.

(** ["0".repeat(n)]. *)
Fixpoint zeros (n : nat) : string :=
  match n with
  | O => EmptyString
  | S k => String "0" (zeros k)
  end.

(** [s.padEnd(n, "0")]. *)
Definition padEnd0 (n : nat) (s : string) : string :=
  s ++ zeros (n - String.length s).

(** [s.substring(0, n)]. *)
Definition prefix (n : nat) (s : string) : string := String.substring 0 n s.

(** [s.substring(1)]. *)
Definition tail (s : string) : string :=
  match s with
  | EmptyString => EmptyString
  | String _ r => r
  end.

(** [array[i] = x] for an index inside the array. *)
Fixpoint set_nth (i : nat) (x : string) (l : list string) : list string :=
  match l, i with
  | [], _ => []
  | _ :: t, O => x :: t
  | h :: t, S j => h :: set_nth j x t
  end.

(** [/^[\d.]+$/.test(s)]. *)
Fixpoint all_digit_or_dot (s : string) : bool :=
  match s with
  | EmptyString => true
  | String a r => (is_digit a || Ascii.eqb a ".") && all_digit_or_dot r
  end.

Definition test_digits_dots (s : string) : bool :=
  match s with
  | EmptyString => false
  | _ => all_digit_or_dot s
  end.

(** Value of a run of decimal digits, most significant first; [None] as
    soon as a character is not a digit. *)
Fixpoint digits_val (acc : Z) (s : string) : option Z :=
  match s with
  | EmptyString => Some acc
  | String a r =>
      if is_digit a then digits_val (10 * acc + digit_val a) r else None
  end.

(** [BigInt(text)].  The empty text is [0n]; otherwise an optional sign and
    at least one decimal digit; anything else raises SyntaxError.  (Blank
    padding and the 0x/0o/0b forms, which JavaScript also accepts, never
    reach the class: its texts are split parts that passed [/^[\d.]+$/],
    outputs of [bigint.toString()] and outputs of [roundString].) *)
Definition BigInt (s : string) : result Z :=
  match s with
  | EmptyString => Ok 0
  | String "-" EmptyString => Throw JsSyntaxError
  | String "+" EmptyString => Throw JsSyntaxError
  | String "-" r =>
      match digits_val 0 r with Some n => Ok (- n) | None => Throw JsSyntaxError end
  | String "+" r =>
      match digits_val 0 r with Some n => Ok n | None => Throw JsSyntaxError end
  | _ =>
      match digits_val 0 s with Some n => Ok n | None => Throw JsSyntaxError end
  end.

(** [Number.isNaN(Number(text))], on the same texts: the empty text is 0,
    a signed run of digits is a number, the rest ("-", "NaN...") is NaN. *)
Definition Number_isNaN (s : string) : bool := negb (is_ok (BigInt s)).

(** [bigint.toString()]: canonical decimal text, "-" for negatives. *)
Definition toString (z : Z) : string := NilZero.string_of_int (Z.to_int z).

(** A JavaScript number that is an integer or NaN ([None]). *)
Definition number : Type := option Z.

(** [n.toString()] for such a number. *)
Definition number_toString (n : number) : string :=
  match n with
  | Some z => toString z
  | None => "NaN"
  end.

Definition is_space (c : ascii) : bool :=
  let n := nat_of_ascii c in
  ((n =? 9) || (n =? 10) || (n =? 11) || (n =? 12) || (n =? 13) || (n =? 32)
   || (n =? 160))%nat.

Fixpoint skip_spaces (s : string) : string :=
  match s with
  | String a r => if is_space a then skip_spaces r else s
  | EmptyString => s
  end.

Definition hex_val (c : ascii) : option Z :=
  let n := nat_of_ascii c in
  if ((48 <=? n) && (n <=? 57))%nat then Some (Z.of_nat n - 48)
  else if ((65 <=? n) && (n <=? 70))%nat then Some (Z.of_nat n - 55)
  else if ((97 <=? n) && (n <=? 102))%nat then Some (Z.of_nat n - 87)
  else None.

(** Longest prefix of digits in the given radix, as a number; [None] when
    the prefix is empty. *)
Fixpoint leading_digits (radix : Z) (acc : option Z) (s : string) : option Z :=
  match s with
  | EmptyString => acc
  | String a r =>
      match hex_val a with
      | Some d =>
          if d <? radix
          then leading_digits radix
                 (Some (radix * match acc with Some v => v | None => 0 end + d)) r
          else acc
      | None => acc
      end
  end.

(** The sign in front of the digits of [parseInt]. *)
Definition split_sign (t : string) : bool * string :=
  match t with
  | String "-" r => (true, r)
  | String "+" r => (false, r)
  | _ => (false, t)
  end.

(** The digits of [parseInt] when no radix is given: "0x"/"0X" selects
    radix 16, anything else radix 10. *)
Definition radix_digits (u : string) : option Z :=
  match u with
  | String "0" (String "x" r) => leading_digits 16 None r
  | String "0" (String "X" r) => leading_digits 16 None r
  | _ => leading_digits 10 None u
  end.

(** [Number.parseInt(text)] without a radix: leading blanks are skipped,
    a sign is read, then the longest run of digits is taken; no digit at
    all gives NaN.  (The result is exact; the rounding of integers above
    2^53 to a double is not modelled.) *)
Definition parseInt (s : string) : number :=
  let '(neg, u) := split_sign (skip_spaces s) in
  match radix_digits u with
  | Some n => Some (if neg then - n else n)
  | None => None
  end.

End Js.

(* ------------------------------------------------------------------ *)
(** ** The class *)

Definition MAX_BYTES : nat := 36.
Definition PRECISION_BYTES : nat := 18.

Definition POSITIVE_INFINITY : Z := 10 ^ 36.
Definition NEGATIVE_INFINITY : Z := - 10 ^ 36.
Definition PRECISION : Z := 10 ^ 18.

Record BigNumber : Type := mkBigNumber {
  _sign : bool;
  _value : string;
  _decimal : string
}.

(** [x || fallback] on a possibly undefined string: undefined and the
    empty string are falsy. *)
Definition or_else (x : option string) (fallback : string) : string :=
  match x with
  | None => fallback
  | Some EmptyString => fallback
  | Some s => s
  end.

(** [lastDigit < 5], false on NaN. *)
Definition number_ltb (n : Js.number) (k : Z) : bool :=
  match n with Some z => z <? k | None => false end.

(** [n >= k], false on NaN. *)
Definition number_geb (n : Js.number) (k : Z) : bool :=
  match n with Some z => k <=? z | None => false end.

(** [n + 1], NaN stays NaN. *)
Definition number_succ (n : Js.number) : Js.number :=
  match n with Some z => Some (z + 1) | None => None end.

Definition nth_str (i : nat) (l : list string) : string := nth i l EmptyString.

Definition fixDecimalDigits (number : string) : string :=
  if (PRECISION_BYTES <=? String.length number)%nat
  then Js.prefix PRECISION_BYTES number
  else Js.zeros (PRECISION_BYTES - String.length number) ++ number.

(** The loop [while (index > 0 && number[index] === "9")] of [roundString]:
    returns the array and the index at loop exit. *)
Fixpoint nines_loop (number : list string) (index : nat) : list string * nat :=
  match index with
  | O => (number, O)
  | S i =>
      if String.eqb (nth_str index number) "9"
      then nines_loop (Js.set_nth index "0" number) i
      else (number, index)
  end.

Definition roundString (_number : string) (precision : nat) : string :=
  if (String.length _number <=? precision)%nat then _number
  else
    let number := Js.chars _number in
    match nth_error number precision with
    | None => Js.join number
    | Some cut =>
        let lastDigit := Js.parseInt cut in
        if number_ltb lastDigit 5 then Js.join (firstn precision number)
        else
          match precision with
          | O =>
              (* index = -1: the loop and the [index === 0] test are skipped,
                 the write to number[-1] adds no array element *)
              Js.join (firstn precision number)
          | S p =>
              let '(number, index) := nines_loop number p in
              if (index =? 0)%nat then
                if String.eqb (nth_str index number) "9"
                then "1" ++ Js.join (Js.set_nth index "0" number)
                else
                  Js.join
                    (Js.set_nth index
                       (Js.number_toString
                          (number_succ (Js.parseInt (nth_str index number))))
                       number)
              else
                Js.join
                  (firstn precision
                     (Js.set_nth index
                        (Js.number_toString
                           (number_succ (Js.parseInt (nth_str index number))))
                        number))
          end
    end.

Definition widenScientificNotation (number : string) : string :=
  if negb (Js.includes "e" number) then number
  else
    let parts := Js.split "e" number in
    let mantissa := nth_error parts 0 in
    let exponent := nth_error parts 1 in
    let exponentValue := Js.parseInt (or_else exponent "0") in
    if number_ltb exponentValue 0 then
      "0."
      ++ Js.zeros (Z.to_nat (- (match exponentValue with Some z => z | None => 0 end) - 1))
      ++ Js.replace "." "" (or_else mantissa "")
    else
      Js.replace "." "" (or_else mantissa "")
      ++ Js.zeros (Z.to_nat (match exponentValue with Some z => z | None => 0 end)).

(** The private constructor. *)
Definition new (sign : bool) (value decimal : string) : result BigNumber :=
  if Js.Number_isNaN value || Js.Number_isNaN decimal
  then Throw ErrUnrecognizedFormat
  else
    v <- Js.BigInt value ;;
    tooBig <- (if v >? POSITIVE_INFINITY then Ok true
               else if v =? POSITIVE_INFINITY
                    then d <- Js.BigInt decimal ;; Ok (negb (d =? 0))
                    else Ok false) ;;
    if (tooBig : bool) then Throw ErrTooBig
    else
      tooSmall <- (if v <? NEGATIVE_INFINITY then Ok true
                   else if v =? NEGATIVE_INFINITY
                        then d <- Js.BigInt decimal ;; Ok (negb (d =? 0))
                        else Ok false) ;;
      if (tooSmall : bool) then Throw ErrTooSmall
      else
        if (PRECISION_BYTES <=? String.length decimal)%nat then
          let newDecimal := roundString decimal PRECISION_BYTES in
          if (PRECISION_BYTES <? String.length newDecimal)%nat
          then Ok (mkBigNumber sign (Js.toString (v + 1)) (Js.zeros PRECISION_BYTES))
          else Ok (mkBigNumber sign value newDecimal)
        else Ok (mkBigNumber sign value (Js.padEnd0 PRECISION_BYTES decimal)).

(** *** Static constructors *)

Definition copysign (number sign : BigNumber) : result BigNumber :=
  new (_sign sign) (_value number) (_decimal number).

Definition fromBigInt (value : Z) : result BigNumber :=
  new (0 <=? value) (Js.toString (if value <? 0 then - value else value)) "0".

Definition fromString (value : string) : result BigNumber :=
  let numberAsString := widenScientificNotation (Js.replace "," "." value) in
  if (2 <? List.length (Js.split "." numberAsString))%nat
  then Throw ErrCannotParse
  else
    let sign :=
      match numberAsString with
      | String "-" _ => false
      | _ => true
      end in
    let cleanedNumber := if sign then numberAsString else Js.tail numberAsString in
    if negb (Js.test_digits_dots cleanedNumber) then Throw ErrCannotParse
    else
      match Js.split "." cleanedNumber with
      | [] => Throw ErrCannotParse
      | valueAsString :: rest =>
          let decimalAsString :=
            match rest with
            | d :: _ => d
            | [] => "0"
            end in
          new sign valueAsString decimalAsString
      end.

(** *** Type conversion and type checks *)

(** [this._decimal[0]], undefined on the empty text. *)
Definition first_char (s : string) : option string :=
  match s with
  | EmptyString => None
  | String a _ => Some (String a EmptyString)
  end.

Definition half_up_bit (decimal : string) : Z :=
  match first_char decimal with
  | None => 0
  | Some c => if number_geb (Js.parseInt c) 5 then 1 else 0
  end.

Definition toBigInt (this : BigNumber) : result Z :=
  v <- Js.BigInt (_value this) ;;
  Ok ((if _sign this then 1 else -1) * (v + half_up_bit (_decimal this))).

Definition toString (this : BigNumber) : string :=
  ((if _sign this then "" else "-") ++ _value this) ++ "." ++ _decimal this.

Definition toInteger (this : BigNumber) : string :=
  (if _sign this then "" else "-")
  ++ roundString
       (_value this ++ match first_char (_decimal this) with
                       | Some c => c
                       | None => ""
                       end)
       (String.length (_value this)).

Definition isInteger (this : BigNumber) : result bool :=
  d <- Js.BigInt (_decimal this) ;; Ok (d =? 0).

Definition isPositive (this : BigNumber) : bool := _sign this.

(** *** Arithmetic conversion methods *)

Definition abs (this : BigNumber) : result BigNumber :=
  new true (_value this) (_decimal this).

Definition ceil (this : BigNumber) : result BigNumber :=
  v <- Js.BigInt (_value this) ;;
  inc <- (if negb (_sign this) then Ok 0
          else d <- Js.BigInt (_decimal this) ;; Ok (if d =? 0 then 0 else 1)) ;;
  new (_sign this) (Js.toString (v + inc)) "0".

Definition floor (this : BigNumber) : result BigNumber :=
  v <- Js.BigInt (_value this) ;;
  inc <- (if negb (_sign this)
          then d <- Js.BigInt (_decimal this) ;; Ok (if negb (d =? 0) then 1 else 0)
          else Ok 0) ;;
  new (_sign this) (Js.toString (v + inc)) "0".

Definition neg (this : BigNumber) : result BigNumber :=
  new (negb (_sign this)) (_value this) (_decimal this).

Definition round (this : BigNumber) : result BigNumber :=
  v <- Js.BigInt (_value this) ;;
  new (_sign this) (Js.toString (v + half_up_bit (_decimal this))) "0".

Definition trunc (this : BigNumber) : result BigNumber :=
  new (_sign this) (_value this) "0".

(** *** Comparison methods *)

Definition equals (this other : BigNumber) : bool :=
  Bool.eqb (_sign this) (_sign other)
  && String.eqb (_value this) (_value other)
  && String.eqb (_decimal this) (_decimal other).

Definition gt (this other : BigNumber) : result bool :=
  if negb (Bool.eqb (_sign this) (_sign other)) then Ok (_sign this)
  else
    a <- Js.BigInt (_value this) ;;
    b <- Js.BigInt (_value other) ;;
    let valueComparison := a - b in
    if negb (valueComparison =? 0)
    then Ok (if _sign this then valueComparison >? 0 else valueComparison <? 0)
    else
      da <- Js.BigInt (_decimal this) ;;
      db <- Js.BigInt (_decimal other) ;;
      Ok (if _sign this then da >? db else da <? db).

Definition gte (this other : BigNumber) : result bool :=
  g <- gt this other ;;
  Ok (g || equals this other).

Definition lt (this other : BigNumber) : result bool :=
  g <- gte this other ;; Ok (negb g).

Definition lte (this other : BigNumber) : result bool :=
  g <- gt this other ;; Ok (negb g).

(** *** Arithmetic methods *)

(** The body of [add].  The method calls itself as [other.add(this.neg())];
    [self] stands for that call. *)
Definition add_body (self : BigNumber -> BigNumber -> result BigNumber)
    (this other : BigNumber) : result BigNumber :=
  if Bool.eqb (_sign this) (_sign other) then
    a <- Js.BigInt (_value this) ;;
    b <- Js.BigInt (_value other) ;;
    let addedValue := Js.toString (a + b) in
    da <- Js.BigInt (_decimal this) ;;
    db <- Js.BigInt (_decimal other) ;;
    let addedDecimal := roundString (Js.toString (da + db)) PRECISION_BYTES in
    new (_sign this) addedValue addedDecimal
  else
    absThis <- abs this ;;
    absOther <- abs other ;;
    bigger <- gt absThis absOther ;;
    if (bigger : bool) then
      a <- Js.BigInt (_value this) ;;
      b <- Js.BigInt (_value other) ;;
      da <- Js.BigInt (_decimal this) ;;
      db <- Js.BigInt (_decimal other) ;;
      new (_sign this) (Js.toString (a - b)) (Js.toString (da - db))
    else
      negThis <- neg this ;;
      self other negThis.

(** [fuel] bounds the depth of the recursion.  Two levels are always
    enough: see [add_fuel_enough] and [add_unfold] below. *)
Fixpoint add_fuel (fuel : nat) : BigNumber -> BigNumber -> result BigNumber :=
  match fuel with
  | O => fun _ _ => Throw CallDepthExhausted
  | S fuel' => add_body (add_fuel fuel')
  end.

Definition add (this other : BigNumber) : result BigNumber :=
  add_fuel 2 this other.

Definition sub (this other : BigNumber) : result BigNumber :=
  negOther <- neg other ;; add this negOther.

(** "Division logic (not implemented fully)": the receiver is returned. *)
Definition div (this other : BigNumber) : result BigNumber := Ok this.

(** "Multiplication logic (not implemented fully)". *)
Definition mul (this other : BigNumber) : result BigNumber := Ok this.

Definition inv (this : BigNumber) : result BigNumber :=
  one <- fromBigInt 1 ;; div one this.

(** [a.m(b)] for two values that are themselves results of calls. *)
Definition bind2 {A B C : Type} (f : A -> B -> result C)
    (ra : result A) (rb : result B) : result C :=
  a <- ra ;; b <- rb ;; f a b.

(** Text of a result, for reading off scenarios. *)
Definition show (r : result BigNumber) : result string :=
  x <- r ;; Ok (toString x).

(* ------------------------------------------------------------------ *)
(** ** Vocabulary of the properties *)

(** The three ways a construction ends when it succeeds. *)
Definition stored (sign : bool) (value decimal : string) (v : Z) : BigNumber :=
  if (PRECISION_BYTES <=? String.length decimal)%nat then
    if (PRECISION_BYTES <? String.length (roundString decimal PRECISION_BYTES))%nat
    then mkBigNumber sign (Js.toString (v + 1)) (Js.zeros PRECISION_BYTES)
    else mkBigNumber sign value (roundString decimal PRECISION_BYTES)
  else mkBigNumber sign value (Js.padEnd0 PRECISION_BYTES decimal).

(** Every instance comes out of the private constructor. *)
Definition valid (x : BigNumber) : Prop :=
  exists sign value decimal, new sign value decimal = Ok x.

(** The number an instance stands for, in units of 10^-18: the integer
    digits scaled by 10^18 plus the 18-digit fraction field, with the sign
    applied (spec, section 3). *)
Definition scaled (x : BigNumber) : result Z :=
  v <- Js.BigInt (_value x) ;;
  d <- Js.BigInt (_decimal x) ;;
  Ok ((if _sign x then 1 else -1) * (v * PRECISION + d)).

Definition nonempty (s : string) : Prop := (1 <= String.length s)%nat.

(** The text [fromString] works on: the first "," replaced, scientific
    notation widened. *)
Definition normalised (text : string) : string :=
  widenScientificNotation (Js.replace "," "." text).

Definition leading_minus (s : string) : bool :=
  match s with
  | String "-" _ => true
  | _ => false
  end.

Fixpoint all_digits (s : string) : bool :=
  match s with
  | EmptyString => true
  | String a r => Js.is_digit a && all_digits r
  end.

(** Integer text the way [bigint.toString()] writes a non-negative number:
    at least one digit, no leading zero except for "0" itself. *)
Definition canonical_digits (s : string) : bool :=
  match s with
  | EmptyString => false
  | String "0" EmptyString => true
  | String "0" _ => false
  | _ => all_digits s
  end.

(** Both fields in canonical shape: canonical integer text and a fraction
    field of exactly 18 digits.  The sign flag is free. *)
Definition canonical (x : BigNumber) : bool :=
  canonical_digits (_value x)
  && all_digits (_decimal x)
  && (String.length (_decimal x) =? PRECISION_BYTES)%nat.

(** The number a run of digits stands for. *)
Definition num (s : string) : Z :=
  match Js.digits_val 0 s with
  | Some n => n
  | None => 0
  end.

Definition exactly_one (p q r : bool) : bool :=
  match p, q, r with
  | true, false, false | false, true, false | false, false, true => true
  | _, _, _ => false
  end.

Definition at_most_one (p q r : bool) : bool :=
  match p, q, r with
  | true, true, _ | true, _, true | _, true, true => false
  | _, _, _ => true
  end.

(** [a.add(b)] for two texts: the text of the result, the number it stands
    for and the exact sum of the operands (both in units of 10^-18). *)
Definition add_report (ta tb : string) : result (string * Z * Z) :=
  a <- fromString ta ;;
  b <- fromString tb ;;
  r <- add a b ;;
  sa <- scaled a ;;
  sb <- scaled b ;;
  sr <- scaled r ;;
  Ok (toString r, sr, sa + sb).

(** [A.add(A.neg()).equals(fromBigInt(0n))]. *)
Definition additive_inverse_law (A : BigNumber) : result bool :=
  negA <- neg A ;;
  r <- add A negA ;;
  zero <- fromBigInt 0 ;;
  Ok (equals r zero).

(** The three comparisons of the trichotomy, for two texts. *)
Definition compare_report (ta tb : string) : result (bool * bool * bool) :=
  a <- fromString ta ;;
  b <- fromString tb ;;
  g1 <- gt a b ;;
  g2 <- gt b a ;;
  Ok (g1, equals a b, g2).

(* ------------------------------------------------------------------ *)
(** ** The test suite of the repository, replayed on the embedding *)

Module Tests.

Example constructor_from_string :
  show (fromString "123.456") = Ok "123.456000000000000000".
Proof. vm_compute. reflexivity. Qed.

Example constructor_invalid_string :
  fromString "12..34" = Throw ErrCannotParse.
Proof. vm_compute. reflexivity. Qed.

Example constructor_from_bigint :
  show (fromBigInt 123456) = Ok "123456.000000000000000000".
Proof. vm_compute. reflexivity. Qed.

Example adds_two_numbers :
  show (bind2 add (fromString "123.456") (fromString "100.100"))
  = Ok "223.556000000000000000".
Proof. vm_compute. reflexivity. Qed.

Example subtracts_two_numbers :
  show (bind2 sub (fromString "123.456") (fromString "100.100"))
  = Ok "23.356000000000000000".
Proof. vm_compute. reflexivity. Qed.

Example negates :
  show (x <- fromString "123.456" ;; neg x) = Ok "-123.456000000000000000".
Proof. vm_compute. reflexivity. Qed.

Example equal_numbers :
  bind2 (fun a b => Ok (equals a b)) (fromString "123.456") (fromString "123.456")
  = Ok true.
Proof. vm_compute. reflexivity. Qed.

Example gt_smaller :
  bind2 gt (fromString "100.456") (fromString "200.456") = Ok false.
Proof. vm_compute. reflexivity. Qed.

Example gt_larger :
  bind2 gt (fromString "300.456") (fromString "200.456") = Ok true.
Proof. vm_compute. reflexivity. Qed.

Example to_bigint : (x <- fromString "123.456" ;; toBigInt x) = Ok 123.
Proof. vm_compute. reflexivity. Qed.

Example to_integer : (x <- fromString "123.789" ;; Ok (toInteger x)) = Ok "124".
Proof. vm_compute. reflexivity. Qed.

Example abs_of_negative :
  show (x <- fromString "-123.456" ;; abs x) = Ok "123.456000000000000000".
Proof. vm_compute. reflexivity. Qed.

Example ceil_value :
  show (x <- fromString "123.456" ;; ceil x) = Ok "124.000000000000000000".
Proof. vm_compute. reflexivity. Qed.

Example floor_value :
  show (x <- fromString "123.456" ;; floor x) = Ok "123.000000000000000000".
Proof. vm_compute. reflexivity. Qed.

Example round_value :
  show (x <- fromString "123.789" ;; round x) = Ok "124.000000000000000000".
Proof. vm_compute. reflexivity. Qed.

Example positive_is_positive :
  (x <- fromString "123.456" ;; Ok (isPositive x)) = Ok true.
Proof. vm_compute. reflexivity. Qed.

Example negative_is_not_positive :
  (x <- fromString "-123.456" ;; Ok (isPositive x)) = Ok false.
Proof. vm_compute. reflexivity. Qed.

Example small_decimal :
  show (fromString "0.000000000000000001") = Ok "0.000000000000000001".
Proof. vm_compute. reflexivity. Qed.

Example large_value :
  show (fromString "999999999999999999999.999999999999999999")
  = Ok "999999999999999999999.999999999999999999".
Proof. vm_compute. reflexivity. Qed.

Example positive_infinity :
  (x <- fromBigInt POSITIVE_INFINITY ;; toBigInt x) = Ok (10 ^ 36).
Proof. vm_compute. reflexivity. Qed.

Example negative_infinity :
  (x <- fromBigInt NEGATIVE_INFINITY ;; toBigInt x) = Ok (- 10 ^ 36).
Proof. vm_compute. reflexivity. Qed.

End Tests.

(* ------------------------------------------------------------------ *)
(** ** Basic facts about the constructor *)

(** The module constants are built from text in the source:
    [BigInt(`1${"0".repeat(MAX_BYTES)}`)] and its negative. *)
Lemma constants_from_text :
  Js.BigInt ("1" ++ Js.zeros MAX_BYTES) = Ok POSITIVE_INFINITY
  /\ Js.BigInt ("-1" ++ Js.zeros MAX_BYTES) = Ok NEGATIVE_INFINITY
  /\ Js.BigInt ("1" ++ Js.zeros PRECISION_BYTES) = Ok PRECISION.
Proof. repeat split; vm_compute; reflexivity. Qed.

Lemma bind_ok_inv {A B : Type} (r : result A) (k : A -> result B) (b : B) :
  bind r k = Ok b -> exists a, r = Ok a /\ k a = Ok b.
Proof.
  destruct r as [a|e]; cbn [bind]; intro H; [exists a; auto | discriminate].
Qed.

(** What a successful construction went through: both texts are integer
    literals, the range checks passed, and the fields are the [stored] ones. *)
Lemma new_ok_inv (sign : bool) (value decimal : string) (x : BigNumber) :
  new sign value decimal = Ok x ->
  exists v d,
    Js.BigInt value = Ok v /\ Js.BigInt decimal = Ok d /\
    NEGATIVE_INFINITY <= v <= POSITIVE_INFINITY /\
    (v = POSITIVE_INFINITY \/ v = NEGATIVE_INFINITY -> d = 0) /\
    x = stored sign value decimal v.
Proof.
  unfold new, Js.Number_isNaN, stored.
  destruct (Js.BigInt value) as [v|e] eqn:Hv; cbn [is_ok negb orb bind]; [|discriminate].
  destruct (Js.BigInt decimal) as [d|e] eqn:Hd; cbn [is_ok negb orb bind]; [|discriminate].
  intro H. exists v, d. split; [reflexivity|]. split; [reflexivity|].
  destruct (Z.gtb_spec v POSITIVE_INFINITY) as [Hgt|Hle]; cbn [bind] in H; [discriminate|].
  destruct (Z.eqb_spec v POSITIVE_INFINITY) as [Heq|Hne]; cbn [bind] in H.
  - destruct (Z.eqb_spec d 0) as [Hd0|Hd0]; cbn [negb] in H; [|discriminate].
    destruct (Z.ltb_spec v NEGATIVE_INFINITY) as [Hlt|Hge]; cbn [bind] in H; [discriminate|].
    destruct (Z.eqb_spec v NEGATIVE_INFINITY) as [Hen|Hnn]; cbn [bind negb] in H.
    + split; [lia|]. split; [intros _; exact Hd0|].
      destruct (PRECISION_BYTES <=? String.length decimal)%nat;
        try destruct (PRECISION_BYTES <? String.length (roundString decimal PRECISION_BYTES))%nat;
        inversion H; reflexivity.
    + split; [lia|]. split; [intros _; exact Hd0|].
      destruct (PRECISION_BYTES <=? String.length decimal)%nat;
        try destruct (PRECISION_BYTES <? String.length (roundString decimal PRECISION_BYTES))%nat;
        inversion H; reflexivity.
  - destruct (Z.ltb_spec v NEGATIVE_INFINITY) as [Hlt|Hge]; cbn [bind] in H; [discriminate|].
    destruct (Z.eqb_spec v NEGATIVE_INFINITY) as [Hen|Hnn]; cbn [bind] in H.
    + destruct (Z.eqb_spec d 0) as [Hd0|Hd0]; cbn [negb] in H; [|discriminate].
      split; [lia|]. split; [intros _; exact Hd0|].
      destruct (PRECISION_BYTES <=? String.length decimal)%nat;
        try destruct (PRECISION_BYTES <? String.length (roundString decimal PRECISION_BYTES))%nat;
        inversion H; reflexivity.
    + split; [lia|]. split; [intros [?|?]; contradiction|].
      destruct (PRECISION_BYTES <=? String.length decimal)%nat;
        try destruct (PRECISION_BYTES <? String.length (roundString decimal PRECISION_BYTES))%nat;
        inversion H; reflexivity.
Qed.

(** Conversely the checks are all there is: texts that are integer literals
    inside the range always construct. *)
Lemma new_ok_intro (sign : bool) (value decimal : string) (v d : Z) :
  Js.BigInt value = Ok v -> Js.BigInt decimal = Ok d ->
  NEGATIVE_INFINITY <= v <= POSITIVE_INFINITY ->
  (v = POSITIVE_INFINITY \/ v = NEGATIVE_INFINITY -> d = 0) ->
  new sign value decimal = Ok (stored sign value decimal v).
Proof.
  intros Hv Hd Hr Hz.
  assert (Hfin : (if (PRECISION_BYTES <=? String.length decimal)%nat then
                    if (PRECISION_BYTES <? String.length (roundString decimal PRECISION_BYTES))%nat
                    then Ok (mkBigNumber sign (Js.toString (v + 1)) (Js.zeros PRECISION_BYTES))
                    else Ok (mkBigNumber sign value (roundString decimal PRECISION_BYTES))
                  else Ok (mkBigNumber sign value (Js.padEnd0 PRECISION_BYTES decimal)))
                 = Ok (stored sign value decimal v)).
  { unfold stored.
    destruct (PRECISION_BYTES <=? String.length decimal)%nat;
      try destruct (PRECISION_BYTES <? String.length (roundString decimal PRECISION_BYTES))%nat;
      reflexivity. }
  unfold new, Js.Number_isNaN.
  rewrite Hv, Hd. cbn [is_ok negb orb bind].
  destruct (Z.gtb_spec v POSITIVE_INFINITY) as [Hgt|Hle]; [lia|].
  destruct (Z.eqb_spec v POSITIVE_INFINITY) as [Heq|Hne]; cbn [bind].
  - rewrite (Hz (or_introl Heq)). cbn [Z.eqb negb].
    destruct (Z.ltb_spec v NEGATIVE_INFINITY) as [Hlt|Hge]; [lia|].
    destruct (Z.eqb_spec v NEGATIVE_INFINITY) as [Hen|Hnn]; cbn [bind Z.eqb negb];
      exact Hfin.
  - destruct (Z.ltb_spec v NEGATIVE_INFINITY) as [Hlt|Hge]; [lia|].
    destruct (Z.eqb_spec v NEGATIVE_INFINITY) as [Hen|Hnn]; cbn [bind].
    + rewrite (Hz (or_intror Hen)). cbn [Z.eqb negb]. exact Hfin.
    + exact Hfin.
Qed.

Lemma stored_sign (sign : bool) (value decimal : string) (v : Z) :
  _sign (stored sign value decimal v) = sign.
Proof.
  unfold stored.
  destruct (PRECISION_BYTES <=? String.length decimal)%nat;
    try destruct (PRECISION_BYTES <? String.length (roundString decimal PRECISION_BYTES))%nat;
    reflexivity.
Qed.

Lemma new_sign (sign : bool) (value decimal : string) (x : BigNumber) :
  new sign value decimal = Ok x -> _sign x = sign.
Proof.
  intro H. destruct (new_ok_inv _ _ _ _ H) as (v & d & _ & _ & _ & _ & ->).
  apply stored_sign.
Qed.

(* ------------------------------------------------------------------ *)
(** ** The recursion of [add] *)

(** With equal signs the body never calls itself. *)
Lemma add_body_same_sign (f g : BigNumber -> BigNumber -> result BigNumber)
    (this other : BigNumber) :
  _sign this = _sign other -> add_body f this other = add_body g this other.
Proof.
  intro H. unfold add_body. rewrite H, Bool.eqb_reflx. reflexivity.
Qed.

(** The recursive call is made with equal signs: it is the last one. *)
Lemma add_body_depth (f g : BigNumber -> BigNumber -> result BigNumber)
    (this other : BigNumber) :
  add_body (add_body f) this other = add_body (add_body g) this other.
Proof.
  unfold add_body at 1 3.
  destruct (Bool.eqb (_sign this) (_sign other)) eqn:Hs; [reflexivity|].
  destruct (abs this) as [absThis|e]; cbn [bind]; [|reflexivity].
  destruct (abs other) as [absOther|e]; cbn [bind]; [|reflexivity].
  destruct (gt absThis absOther) as [[|]|e]; cbn [bind]; try reflexivity.
  destruct (neg this) as [negThis|e] eqn:Hn; cbn [bind]; [|reflexivity].
  apply add_body_same_sign.
  apply new_sign in Hn. rewrite Hn.
  destruct (_sign this), (_sign other); try reflexivity; discriminate.
Qed.

(** More fuel changes nothing: the model never runs out of fuel. *)
Lemma add_fuel_enough (n : nat) (this other : BigNumber) :
  add_fuel (2 + n) this other = add this other.
Proof.
  unfold add. cbn [add_fuel Nat.add]. apply add_body_depth.
Qed.

(** [add] satisfies the recursive equation that the source writes. *)
Lemma add_unfold (this other : BigNumber) :
  add this other = add_body add this other.
Proof.
  rewrite <- (add_fuel_enough 1).
  change (add_fuel (2 + 1)) with (add_body (add_fuel 2)).
  reflexivity.
Qed.

Lemma BigInt_error (s : string) (e : error) :
  Js.BigInt s = Throw e -> e = JsSyntaxError.
Proof.
  unfold Js.BigInt.
  repeat match goal with
         | |- context [match ?x with _ => _ end] => destruct x; try discriminate
         end;
    intro H; inversion H; reflexivity.
Qed.

Lemma new_error (s : bool) (v d : string) (e : error) :
  new s v d = Throw e -> e <> CallDepthExhausted.
Proof.
  unfold new.
  destruct (Js.Number_isNaN v || Js.Number_isNaN d);
    [intro H; inversion H; discriminate|].
  destruct (Js.BigInt v) as [z|e1] eqn:Ev; cbn [bind];
    [|intro H; inversion H; subst; apply BigInt_error in Ev; subst; discriminate].
  destruct (Js.BigInt d) as [z'|e1] eqn:Ed; cbn [bind];
    repeat match goal with
           | |- context [if ?x then _ else _] => destruct x; cbn [bind]
           end;
    intro H; inversion H; subst; try discriminate;
    apply BigInt_error in Ed; subst; discriminate.
Qed.

Lemma gt_error (a b : BigNumber) (e : error) :
  gt a b = Throw e -> e = JsSyntaxError.
Proof.
  unfold gt.
  destruct (negb (Bool.eqb (_sign a) (_sign b))); [discriminate|].
  destruct (Js.BigInt (_value a)) as [?|e1] eqn:G1; cbn [bind];
    [|intro H; inversion H; subst; eapply BigInt_error; eassumption].
  destruct (Js.BigInt (_value b)) as [?|e1] eqn:G2; cbn [bind];
    [|intro H; inversion H; subst; eapply BigInt_error; eassumption].
  destruct (negb (_ =? 0)); [discriminate|].
  destruct (Js.BigInt (_decimal a)) as [?|e1] eqn:G3; cbn [bind];
    [|intro H; inversion H; subst; eapply BigInt_error; eassumption].
  destruct (Js.BigInt (_decimal b)) as [?|e1] eqn:G4; cbn [bind];
    [|intro H; inversion H; subst; eapply BigInt_error; eassumption].
  discriminate.
Qed.

Ltac throw_bigint E :=
  let H := fresh in
  intro H; inversion H; subst; apply BigInt_error in E; discriminate.

Ltac throw_new E :=
  let H := fresh in
  intro H; inversion H; subst; apply new_error in E; contradiction.

Lemma add_body_same_sign_error (f : BigNumber -> BigNumber -> result BigNumber)
    (a b : BigNumber) :
  _sign a = _sign b -> add_body f a b <> Throw CallDepthExhausted.
Proof.
  intros H. unfold add_body. rewrite H, Bool.eqb_reflx.
  destruct (Js.BigInt (_value a)) as [?|e] eqn:E1; cbn [bind]; [|throw_bigint E1].
  destruct (Js.BigInt (_value b)) as [?|e] eqn:E2; cbn [bind]; [|throw_bigint E2].
  destruct (Js.BigInt (_decimal a)) as [?|e] eqn:E3; cbn [bind]; [|throw_bigint E3].
  destruct (Js.BigInt (_decimal b)) as [?|e] eqn:E4; cbn [bind]; [|throw_bigint E4].
  intro E. apply new_error in E. contradiction.
Qed.

(** [add] always returns or raises one of the source's exceptions. *)
Lemma add_never_exhausted (this other : BigNumber) :
  add this other <> Throw CallDepthExhausted.
Proof.
  unfold add. cbn [add_fuel]. unfold add_body at 1.
  destruct (Bool.eqb (_sign this) (_sign other)) eqn:Hs.
  - apply Bool.eqb_prop in Hs.
    pose proof (add_body_same_sign_error (add_fuel 0) this other Hs) as H.
    unfold add_body in H. rewrite Hs, Bool.eqb_reflx in H. rewrite Hs. exact H.
  - unfold abs, neg.
    destruct (new true (_value this) (_decimal this)) as [absThis|e] eqn:E1; cbn [bind];
      [|throw_new E1].
    destruct (new true (_value other) (_decimal other)) as [absOther|e] eqn:E2; cbn [bind];
      [|throw_new E2].
    destruct (gt absThis absOther) as [[|]|e] eqn:E3; cbn [bind].
    + destruct (Js.BigInt (_value this)) as [?|e] eqn:F1; cbn [bind]; [|throw_bigint F1].
      destruct (Js.BigInt (_value other)) as [?|e] eqn:F2; cbn [bind]; [|throw_bigint F2].
      destruct (Js.BigInt (_decimal this)) as [?|e] eqn:F3; cbn [bind]; [|throw_bigint F3].
      destruct (Js.BigInt (_decimal other)) as [?|e] eqn:F4; cbn [bind]; [|throw_bigint F4].
      intro E. apply new_error in E. contradiction.
    + destruct (new (negb (_sign this)) (_value this) (_decimal this))
        as [negThis|e] eqn:E4; cbn [bind]; [|throw_new E4].
      apply add_body_same_sign_error. apply new_sign in E4. rewrite E4.
      destruct (_sign this), (_sign other); try reflexivity; discriminate.
    + intro H; inversion H; subst. apply gt_error in E3. discriminate.
Qed.

(* ------------------------------------------------------------------ *)
(** ** Invariant: the fraction field has 18 characters *)

Lemma length_append (s t : string) :
  String.length (s ++ t) = (String.length s + String.length t)%nat.
Proof.
  induction s as [|a s IH]; simpl; [reflexivity | rewrite IH; reflexivity].
Qed.

Lemma length_zeros (n : nat) : String.length (Js.zeros n) = n.
Proof.
  induction n as [|n IH]; simpl; [reflexivity | rewrite IH; reflexivity].
Qed.

Lemma length_padEnd0 (n : nat) (s : string) :
  (String.length s <= n)%nat -> String.length (Js.padEnd0 n s) = n.
Proof.
  intro H. unfold Js.padEnd0. rewrite length_append, length_zeros. lia.
Qed.

(** *** Lengths through [roundString] *)

Lemma append_empty_r (s : string) : s ++ "" = s.
Proof.
  induction s as [|a s IH]; simpl; [reflexivity | rewrite IH; reflexivity].
Qed.

Lemma join_cons (s : string) (l : list string) :
  Js.join (s :: l) = s ++ Js.join l.
Proof.
  unfold Js.join. destruct l as [|t l]; simpl.
  - rewrite append_empty_r. reflexivity.
  - reflexivity.
Qed.

Lemma length_join (l : list string) :
  Forall nonempty l -> (List.length l <= String.length (Js.join l))%nat.
Proof.
  induction 1 as [|s l Hs Hl IH]; [simpl; lia|].
  rewrite join_cons, length_append. unfold nonempty in Hs. simpl List.length. lia.
Qed.

Lemma chars_nonempty (s : string) : Forall nonempty (Js.chars s).
Proof.
  induction s as [|a s IH]; simpl; constructor; [unfold nonempty; simpl; lia | exact IH].
Qed.

Lemma length_chars (s : string) : List.length (Js.chars s) = String.length s.
Proof.
  induction s as [|a s IH]; simpl; [reflexivity | rewrite IH; reflexivity].
Qed.

Lemma join_chars (s : string) : Js.join (Js.chars s) = s.
Proof.
  induction s as [|a s IH]; [reflexivity|].
  simpl Js.chars. rewrite join_cons, IH. reflexivity.
Qed.

Lemma set_nth_length (i : nat) (x : string) (l : list string) :
  List.length (Js.set_nth i x l) = List.length l.
Proof.
  revert i. induction l as [|h t IH]; intros [|i]; simpl; try reflexivity.
  rewrite IH. reflexivity.
Qed.

Lemma set_nth_nonempty (i : nat) (x : string) (l : list string) :
  nonempty x -> Forall nonempty l -> Forall nonempty (Js.set_nth i x l).
Proof.
  intros Hx Hl. revert i. induction Hl as [|h t Hh Ht IH]; intros [|i]; simpl;
    constructor; auto.
Qed.

Lemma nines_loop_shape (number : list string) (index : nat) :
  Forall nonempty number ->
  Forall nonempty (fst (nines_loop number index))
  /\ List.length (fst (nines_loop number index)) = List.length number.
Proof.
  revert number. induction index as [|i IH]; intros number H.
  - simpl. auto.
  - cbn [nines_loop]. destruct (String.eqb (nth_str (S i) number) "9").
    + destruct (IH (Js.set_nth (S i) "0" number)) as [H1 H2].
      { apply set_nth_nonempty; [unfold nonempty; simpl; lia | exact H]. }
      rewrite set_nth_length in H2. auto.
    + simpl. auto.
Qed.

Lemma toString_nonempty (z : Z) : nonempty (Js.toString z).
Proof.
  unfold nonempty, Js.toString.
  destruct z as [|p|p]; simpl; try lia.
  destruct (Pos.to_uint p); simpl; lia.
Qed.

Lemma number_toString_nonempty (n : Js.number) : nonempty (Js.number_toString n).
Proof.
  destruct n as [z|]; [apply toString_nonempty | unfold nonempty; simpl; lia].
Qed.

Lemma firstn_nonempty (n : nat) (l : list string) :
  Forall nonempty l -> Forall nonempty (firstn n l).
Proof.
  intro H. revert n. induction H as [|h t Hh Ht IH]; intros [|n]; simpl;
    constructor; auto.
Qed.

(** Cutting at [precision] never yields fewer than [precision] characters. *)
Lemma roundString_length_ge (s : string) (precision : nat) :
  (precision <= String.length s)%nat ->
  (precision <= String.length (roundString s precision))%nat.
Proof.
  intro Hlen. unfold roundString.
  destruct (String.length s <=? precision)%nat eqn:Hle; [exact Hlen|].
  apply Nat.leb_gt in Hle.
  pose proof (chars_nonempty s) as Hne. pose proof (length_chars s) as Hlc.
  assert (Hcut : forall l, Forall nonempty l -> (precision <= List.length l)%nat ->
                           (precision <= String.length (Js.join (firstn precision l)))%nat).
  { intros l Hl Hp. pose proof (length_join (firstn precision l) (firstn_nonempty _ _ Hl)) as H.
    rewrite List.length_firstn in H. lia. }
  destruct (nth_error (Js.chars s) precision) as [cut|].
  2:{ rewrite join_chars. exact Hlen. }
  destruct (number_ltb (Js.parseInt cut) 5); [apply Hcut; [exact Hne|lia]|].
  destruct precision as [|p]; [lia|].
  destruct (nines_loop (Js.chars s) p) as [number index] eqn:Hloop.
  destruct (nines_loop_shape (Js.chars s) p Hne) as [H1 H2].
  rewrite Hloop in H1, H2. simpl in H1, H2.
  destruct (index =? 0)%nat.
  - destruct (String.eqb (nth_str index number) "9").
    + rewrite length_append.
      pose proof (length_join (Js.set_nth index "0" number)) as H.
      rewrite set_nth_length in H.
      assert (Forall nonempty (Js.set_nth index "0" number)) as Hf
        by (apply set_nth_nonempty; [unfold nonempty; simpl; lia | exact H1]).
      specialize (H Hf). lia.
    + match goal with
      | |- context [Js.join (Js.set_nth index ?x number)] =>
          pose proof (length_join (Js.set_nth index x number)) as H;
          rewrite set_nth_length in H;
          assert (Forall nonempty (Js.set_nth index x number)) as Hf
            by (apply set_nth_nonempty; [apply number_toString_nonempty | exact H1])
      end.
      specialize (H Hf). lia.
  - apply Hcut.
    + apply set_nth_nonempty; [apply number_toString_nonempty | exact H1].
    + rewrite set_nth_length. lia.
Qed.

(** Invariant: the fraction field of every instance has 18 characters. *)
Lemma stored_decimal_length (sign : bool) (value decimal : string) (v : Z) :
  String.length (_decimal (stored sign value decimal v)) = PRECISION_BYTES.
Proof.
  unfold stored.
  destruct (PRECISION_BYTES <=? String.length decimal)%nat eqn:H1.
  - apply Nat.leb_le in H1.
    destruct (PRECISION_BYTES <? String.length (roundString decimal PRECISION_BYTES))%nat eqn:H2.
    + reflexivity.
    + apply Nat.ltb_ge in H2. pose proof (roundString_length_ge _ _ H1). simpl. lia.
  - apply Nat.leb_gt in H1. simpl. apply length_padEnd0. lia.
Qed.

Lemma valid_decimal_length (x : BigNumber) :
  valid x -> String.length (_decimal x) = PRECISION_BYTES.
Proof.
  intros (s & v & d & H).
  destruct (new_ok_inv _ _ _ _ H) as (z & z' & _ & _ & _ & _ & ->).
  apply stored_decimal_length.
Qed.

(** A fraction field of 18 characters is stored as it is. *)
Lemma stored_exact (sign : bool) (value decimal : string) (v : Z) :
  String.length decimal = PRECISION_BYTES ->
  stored sign value decimal v = mkBigNumber sign value decimal.
Proof.
  intro H. unfold stored, roundString. rewrite H.
  rewrite Nat.leb_refl, H, Nat.ltb_irrefl. reflexivity.
Qed.

(* ------------------------------------------------------------------ *)
(** ** Addition *)

(** C1 (code bug).  [add] does not compute the exact sum.  With different
    signs and [|this| <= |other|] the role flip [other.add(this.neg())]
    computes [other - this]: 3 + (-5) is -8.  With different signs and
    [|this| > |other|] nothing is borrowed: 5.1 + (-3.2) stores the fraction
    text "-10000000000000000".  With equal signs the fraction sum is printed
    without its leading zeros and a 19-digit sum is cut, not carried:
    0.001 + 0.001 is 0.2 and 0.6 + 0.7 is 0.13. *)
Theorem add_is_not_the_exact_sum :
  add_report "3" "-5"
    = Ok ("-8.000000000000000000", -8000000000000000000, -2000000000000000000)
  /\ add_report "5.1" "-3.2"
    = Ok ("2.-10000000000000000", 1990000000000000000, 1900000000000000000)
  /\ add_report "0.001" "0.001"
    = Ok ("0.200000000000000000", 200000000000000000, 2000000000000000)
  /\ add_report "0.6" "0.7"
    = Ok ("0.130000000000000000", 130000000000000000, 1300000000000000000).
Proof. repeat split; vm_compute; reflexivity. Qed.

(** For an instance, [A.add(A.neg())] is the same-sign sum
    [A.neg().add(A.neg())]: the magnitudes are equal, so [gt] on the absolute
    values is false and the roles are flipped. *)
Lemma add_neg_is_double_neg (A negA : BigNumber) :
  valid A -> neg A = Ok negA ->
  add A negA = add_body add negA negA.
Proof.
  intros HA Hn. pose proof (valid_decimal_length _ HA) as Hlen.
  unfold neg in Hn.
  destruct (new_ok_inv _ _ _ _ Hn) as (v & d & Hv & Hd & Hr & Hz & Hx).
  rewrite (stored_exact _ _ _ _ Hlen) in Hx.
  assert (Habs : new true (_value A) (_decimal A)
                 = Ok (mkBigNumber true (_value A) (_decimal A))).
  { rewrite (new_ok_intro true _ _ v d Hv Hd Hr Hz), (stored_exact _ _ _ _ Hlen).
    reflexivity. }
  rewrite add_unfold. unfold add_body at 1.
  subst negA. cbn [_sign _value _decimal].
  replace (Bool.eqb (_sign A) (negb (_sign A))) with false
    by (destruct (_sign A); reflexivity).
  unfold abs. cbn [_sign _value _decimal]. rewrite Habs. cbn [bind].
  unfold gt. cbn [_sign _value _decimal Bool.eqb negb].
  rewrite Hv, Hd. cbn [bind]. rewrite Z.sub_diag. cbn [Z.eqb negb].
  rewrite Z.gtb_ltb, Z.ltb_irrefl. cbn [bind].
  unfold neg. rewrite Hn. cbn [bind]. apply add_unfold.
Qed.

(** So the result carries the sign opposite to A's: for a non-negative A
    it is negative and cannot equal [fromBigInt(0n)]. *)
Lemma additive_inverse_never_for_positive (A : BigNumber) :
  valid A -> _sign A = true -> additive_inverse_law A <> Ok true.
Proof.
  intros HA Hs. unfold additive_inverse_law.
  destruct (neg A) as [negA|e] eqn:Hn; cbn [bind]; [|discriminate].
  rewrite (add_neg_is_double_neg A negA HA Hn).
  pose proof (new_sign _ _ _ _ Hn) as Hsn. rewrite Hs in Hsn. cbn [negb] in Hsn.
  unfold add_body. rewrite Bool.eqb_reflx.
  destruct (Js.BigInt (_value negA)) as [a|e]; cbn [bind]; [|discriminate].
  destruct (Js.BigInt (_decimal negA)) as [da|e]; cbn [bind]; [|discriminate].
  destruct (new (_sign negA) _ _) as [r|e] eqn:Hr; cbn [bind]; [|discriminate].
  apply new_sign in Hr. rewrite Hsn in Hr.
  destruct (fromBigInt 0) as [zero|e] eqn:Hz; cbn [bind]; [|discriminate].
  apply new_sign in Hz. cbn in Hz.
  unfold equals. rewrite Hr, Hz. cbn [Bool.eqb andb]. discriminate.
Qed.

(** C2 (code bug).  The additive-inverse law fails: 5 + (-5) is -10, and
    for [fromBigInt(0n)] the sum is negative zero, which [equals] tells from
    [fromBigInt(0n)].  Same defect as C1: the role flip negates [this]. *)
Theorem additive_inverse_law_fails :
  (a <- fromBigInt 5 ;; additive_inverse_law a) = Ok false
  /\ (a <- fromBigInt 5 ;; n <- neg a ;; show (add a n))
     = Ok "-10.000000000000000000"
  /\ (a <- fromBigInt 0 ;; additive_inverse_law a) = Ok false
  /\ (a <- fromBigInt 0 ;; n <- neg a ;; show (add a n))
     = Ok "-0.000000000000000000".
Proof. repeat split; vm_compute; reflexivity. Qed.

(* ------------------------------------------------------------------ *)
(** ** Division *)

(** C5 (code bug).  [div] is the stub "Division logic (not implemented
    fully)": it returns the receiver whatever the divisor is, also for a
    zero divisor, and so does [inv]: 1 / 0 and inv(0) are both 1. *)
Theorem div_by_zero_returns_the_receiver :
  (forall this other : BigNumber, div this other = Ok this)
  /\ (one <- fromBigInt 1 ;; zero <- fromBigInt 0 ;; show (div one zero))
     = Ok "1.000000000000000000"
  /\ (zero <- fromBigInt 0 ;; show (inv zero)) = Ok "1.000000000000000000"
  /\ (zero <- fromString "0.0" ;; show (inv zero)) = Ok "1.000000000000000000".
Proof. repeat split; vm_compute; reflexivity. Qed.

(* ------------------------------------------------------------------ *)
(** ** Conversion to integer text *)

(** C6 (code bug).  [toInteger] keeps the cut digit whenever the carry of
    [roundString] reaches index 0: both [index === 0] branches return
    [number.join("")] without [slice(0, precision)].  999.5 gives "10005"
    where "1000" is due, and 3.7 gives "47". *)
Theorem toInteger_keeps_the_cut_digit :
  (x <- fromString "999.5" ;; Ok (toInteger x)) = Ok "10005"
  /\ (x <- fromString "3.7" ;; Ok (toInteger x)) = Ok "47"
  /\ roundString "9995" 3 = "10005"
  /\ roundString "37" 1 = "47".
Proof. repeat split; vm_compute; reflexivity. Qed.

(* ------------------------------------------------------------------ *)
(** ** Sign and zero *)

Lemma fromString_sign (text : string) (x : BigNumber) :
  fromString text = Ok x -> _sign x = negb (leading_minus (normalised text)).
Proof.
  unfold fromString. fold (normalised text).
  destruct (2 <? List.length (Js.split "." (normalised text)))%nat; [discriminate|].
  assert (Hs : match normalised text with String "-" _ => false | _ => true end
               = negb (leading_minus (normalised text))).
  { unfold leading_minus.
    destruct (normalised text) as [|a r]; [reflexivity|].
    destruct a as [[|] [|] [|] [|] [|] [|] [|] [|]]; reflexivity. }
  rewrite Hs.
  destruct (negb (Js.test_digits_dots _)); [discriminate|].
  destruct (Js.split "." _) as [|valueAsString rest]; [discriminate|].
  apply new_sign.
Qed.

(** C3 (counterexample).  [fromString("-0.0")] is a zero that is not
    positive. *)
Lemma minus_zero_is_not_positive :
  ~ (exists x, fromString "-0.0" = Ok x /\ isPositive x = true).
Proof.
  intros (x & H & Hp). vm_compute in H. inversion H; subst x. discriminate.
Qed.

(** C3 (amended).  [isPositive] returns the stored sign flag, and
    [fromString] takes that flag from the leading "-" of the text whatever
    the magnitude; [toString] prints "-" exactly when the flag is off.  So
    [fromString("-0.0")] is not positive and prints as
    "-0.000000000000000000", while zero written without "-" or built by
    [fromBigInt(0n)] is positive and prints as "0.000000000000000000". *)
Theorem sign_follows_the_text (text : string) (x : BigNumber)
    (H : fromString text = Ok x) :
  isPositive x = negb (leading_minus (normalised text))
  /\ toString x = (if isPositive x then "" else "-") ++ _value x ++ "." ++ _decimal x
  /\ (z <- fromString "-0.0" ;; Ok (isPositive z, toString z))
     = Ok (false, "-0.000000000000000000")
  /\ (z <- fromString "0.0" ;; Ok (isPositive z, toString z))
     = Ok (true, "0.000000000000000000")
  /\ (z <- fromBigInt 0 ;; Ok (isPositive z, toString z))
     = Ok (true, "0.000000000000000000").
Proof.
  split; [exact (fromString_sign text x H)|].
  split.
  - unfold toString, isPositive. destruct (_sign x); reflexivity.
  - repeat split; vm_compute; reflexivity.
Qed.

Lemma sign_follows_the_text_witness :
  isPositive (mkBigNumber false "0" "000000000000000000")
  = negb (leading_minus (normalised "-0.0")).
Proof.
  apply (sign_follows_the_text "-0.0" (mkBigNumber false "0" "000000000000000000")).
  vm_compute. reflexivity.
Defined.

(* ------------------------------------------------------------------ *)
(** ** Padding of a short fraction *)

(** C8 (counterexample).  The fraction field of [fromString("0.5")] is not
    "000000000000000005". *)
Lemma half_is_not_left_padded :
  ~ (exists x, fromString "0.5" = Ok x /\ _decimal x = "000000000000000005").
Proof.
  intros (x & H & Hd). vm_compute in H. inversion H; subst x. discriminate.
Qed.

(** C8 (amended).  A fraction source shorter than 18 characters is padded
    with zeros at its end ([padEnd]), up to length 18: [fromString("0.5")]
    stores "500000000000000000" and prints as "0.500000000000000000". *)
Theorem short_fraction_is_padded_at_the_end
    (sign : bool) (value decimal : string) (x : BigNumber)
    (Hshort : (String.length decimal < PRECISION_BYTES)%nat)
    (H : new sign value decimal = Ok x) :
  _decimal x = decimal ++ Js.zeros (PRECISION_BYTES - String.length decimal)
  /\ String.length (_decimal x) = PRECISION_BYTES
  /\ _value x = value
  /\ (y <- fromString "0.5" ;; Ok (_decimal y, toString y))
     = Ok ("500000000000000000", "0.500000000000000000").
Proof.
  destruct (new_ok_inv _ _ _ _ H) as (v & d & _ & _ & _ & _ & Hx).
  unfold stored in Hx.
  apply Nat.leb_gt in Hshort. rewrite Hshort in Hx. subst x.
  cbn [_decimal _value]. apply Nat.leb_gt in Hshort.
  split; [reflexivity|]. split; [apply length_padEnd0; lia|].
  split; [reflexivity|]. vm_compute. reflexivity.
Qed.

Lemma short_fraction_is_padded_at_the_end_witness :
  _decimal (mkBigNumber true "0" "500000000000000000")
  = "5" ++ Js.zeros (PRECISION_BYTES - String.length "5").
Proof.
  apply (short_fraction_is_padded_at_the_end true "0" "5"
           (mkBigNumber true "0" "500000000000000000")).
  - vm_compute. lia.
  - vm_compute. reflexivity.
Defined.

(* ------------------------------------------------------------------ *)
(** ** Digit-free text *)

(** C10.  [fromString(".")] raises nothing: it returns an instance with an
    empty integer text, printed as ".000000000000000000", which [equals]
    tells from [fromBigInt(0n)]. *)
Theorem fromString_dot_is_accepted :
  fromString "." = Ok (mkBigNumber true "" "000000000000000000")
  /\ show (fromString ".") = Ok ".000000000000000000"
  /\ (x <- fromString "." ;; z <- fromBigInt 0 ;; Ok (equals x z)) = Ok false
  /\ (x <- fromString "." ;; scaled x) = Ok 0.
Proof. repeat split; vm_compute; reflexivity. Qed.

(* ------------------------------------------------------------------ *)
(** ** Comparison *)

Lemma digit_val_range (a : ascii) :
  Js.is_digit a = true -> 0 <= Js.digit_val a <= 9.
Proof.
  unfold Js.is_digit, Js.digit_val. intro H.
  apply andb_true_iff in H. destruct H as [H1 H2].
  apply Nat.leb_le in H1, H2. lia.
Qed.

Lemma digit_val_inj (a b : ascii) :
  Js.is_digit a = true -> Js.is_digit b = true ->
  Js.digit_val a = Js.digit_val b -> a = b.
Proof.
  unfold Js.digit_val. intros _ _ H.
  rewrite <- (ascii_nat_embedding a), <- (ascii_nat_embedding b).
  f_equal. lia.
Qed.

Lemma digits_val_acc (s : string) :
  all_digits s = true ->
  forall acc,
    Js.digits_val acc s = Some (acc * 10 ^ Z.of_nat (String.length s) + num s)
    /\ 0 <= num s < 10 ^ Z.of_nat (String.length s).
Proof.
  induction s as [|a r IH]; intros Hd acc.
  - unfold num. simpl. split; [f_equal; lia | lia].
  - simpl in Hd. apply andb_true_iff in Hd. destruct Hd as [Ha Hr].
    pose proof (digit_val_range a Ha) as Hrange.
    assert (Hn : num (String a r)
                 = Js.digit_val a * 10 ^ Z.of_nat (String.length r) + num r).
    { unfold num at 1. cbn [Js.digits_val]. rewrite Ha.
      destruct (IH Hr (10 * 0 + Js.digit_val a)) as [-> _]. f_equal. }
    cbn [Js.digits_val String.length]. rewrite Ha.
    destruct (IH Hr (10 * acc + Js.digit_val a)) as [-> Hb].
    rewrite Hn, Nat2Z.inj_succ, Z.pow_succ_r by lia.
    split; [f_equal; ring | nia].
Qed.

Lemma num_cons (a : ascii) (r : string) :
  all_digits (String a r) = true ->
  num (String a r) = Js.digit_val a * 10 ^ Z.of_nat (String.length r) + num r.
Proof.
  intro Hd. pose proof Hd as Hd'. simpl in Hd'.
  apply andb_true_iff in Hd'. destruct Hd' as [Ha Hr].
  unfold num at 1. cbn [Js.digits_val]. rewrite Ha.
  destruct (digits_val_acc r Hr (10 * 0 + Js.digit_val a)) as [-> _]. f_equal.
Qed.

(** Runs of digits of one length that stand for the same number are the
    same text. *)
Lemma num_inj_same_length (s t : string) :
  all_digits s = true -> all_digits t = true ->
  String.length s = String.length t -> num s = num t -> s = t.
Proof.
  revert t. induction s as [|a r IH]; intros [|b u] Hs Ht Hl Hn;
    try reflexivity; try discriminate.
  pose proof Hs as Hs'. pose proof Ht as Ht'.
  simpl in Hs', Ht'. apply andb_true_iff in Hs', Ht'.
  destruct Hs' as [Ha Hr], Ht' as [Hb Hu].
  rewrite (num_cons a r Hs), (num_cons b u Ht) in Hn.
  simpl in Hl. injection Hl as Hl. rewrite <- Hl in Hn.
  destruct (digits_val_acc r Hr 0) as [_ Br], (digits_val_acc u Hu 0) as [_ Bu].
  rewrite <- Hl in Bu.
  pose proof (digit_val_range a Ha). pose proof (digit_val_range b Hb).
  assert (Js.digit_val a = Js.digit_val b) by nia.
  assert (num r = num u) by nia.
  f_equal; [apply digit_val_inj; assumption | apply IH; assumption].
Qed.

Lemma BigInt_digits (s : string) :
  all_digits s = true -> Js.BigInt s = Ok (num s).
Proof.
  intro H. destruct s as [|a r]; [reflexivity|].
  pose proof (digits_val_acc _ H 0) as [Hv _].
  pose proof H as H'. simpl in H'. apply andb_true_iff in H'. destruct H' as [Ha _].
  assert (Hgen : Js.BigInt (String a r)
                 = match Js.digits_val 0 (String a r) with
                   | Some n => Ok n
                   | None => Throw JsSyntaxError
                   end).
  { clear Hv H.
    destruct a as [[|] [|] [|] [|] [|] [|] [|] [|]];
      try (cbv in Ha; discriminate); reflexivity. }
  rewrite Hgen, Hv. reflexivity.
Qed.

Lemma canonical_digits_cases (s : string) :
  canonical_digits s = true ->
  s = "0" \/
  exists a r, s = String a r /\ all_digits s = true /\ 1 <= Js.digit_val a.
Proof.
  destruct s as [|a r]; [discriminate|].
  destruct a as [[|] [|] [|] [|] [|] [|] [|] [|]];
    cbn [canonical_digits]; intro H;
    try (cbn in H; discriminate);
    try (right; exists a, r; fail);
    try (right; do 2 eexists; split; [reflexivity|]; split; [exact H|];
         unfold Js.digit_val; simpl; lia).
  destruct r; [left; reflexivity | discriminate].
Qed.

Lemma canonical_digits_all (s : string) :
  canonical_digits s = true -> all_digits s = true.
Proof.
  intro H. destruct (canonical_digits_cases s H) as [->|(a & r & _ & Hd & _)];
    [reflexivity | exact Hd].
Qed.

(** Canonical integer texts that stand for the same number are the same
    text. *)
Lemma canonical_digits_inj (s t : string) :
  canonical_digits s = true -> canonical_digits t = true ->
  num s = num t -> s = t.
Proof.
  intros Hs Ht Hn.
  assert (Hbig : forall a r, all_digits (String a r) = true -> 1 <= Js.digit_val a ->
                 10 ^ Z.of_nat (String.length r) <= num (String a r)
                                                 < 10 ^ (Z.of_nat (String.length r) + 1)).
  { intros a r Hd H1. rewrite (num_cons a r Hd).
    pose proof Hd as Hd'. simpl in Hd'. apply andb_true_iff in Hd'.
    destruct Hd' as [Ha Hr].
    destruct (digits_val_acc r Hr 0) as [_ Br].
    pose proof (digit_val_range a Ha).
    rewrite Z.pow_add_r by lia. nia. }
  destruct (canonical_digits_cases s Hs) as [->|(a & r & -> & Hds & H1s)];
    destruct (canonical_digits_cases t Ht) as [->|(b & u & -> & Hdt & H1t)].
  - reflexivity.
  - pose proof (Hbig b u Hdt H1t) as B.
    assert (0 < 10 ^ Z.of_nat (String.length u)) by (apply Z.pow_pos_nonneg; lia).
    change (num "0") with 0 in Hn. lia.
  - pose proof (Hbig a r Hds H1s) as B.
    assert (0 < 10 ^ Z.of_nat (String.length r)) by (apply Z.pow_pos_nonneg; lia).
    change (num "0") with 0 in Hn. lia.
  - pose proof (Hbig a r Hds H1s) as Bs. pose proof (Hbig b u Hdt H1t) as Bt.
    apply num_inj_same_length; try assumption.
    simpl. f_equal.
    destruct (Nat.lt_trichotomy (String.length r) (String.length u)) as [Hlt|[Heq|Hgt]];
      [exfalso | exact Heq | exfalso].
    + assert (10 ^ (Z.of_nat (String.length r) + 1) <= 10 ^ Z.of_nat (String.length u))
        by (apply Z.pow_le_mono_r; lia).
      lia.
    + assert (10 ^ (Z.of_nat (String.length u) + 1) <= 10 ^ Z.of_nat (String.length r))
        by (apply Z.pow_le_mono_r; lia).
      lia.
Qed.

(** [gt] on instances whose four texts are integer literals. *)
Lemma gt_eval (A B : BigNumber) (a b da db : Z) :
  Js.BigInt (_value A) = Ok a -> Js.BigInt (_value B) = Ok b ->
  Js.BigInt (_decimal A) = Ok da -> Js.BigInt (_decimal B) = Ok db ->
  gt A B = Ok (if negb (Bool.eqb (_sign A) (_sign B)) then _sign A
               else if negb (a - b =? 0)
                    then (if _sign A then a - b >? 0 else a - b <? 0)
                    else (if _sign A then da >? db else da <? db)).
Proof.
  intros Ha Hb Hda Hdb. unfold gt. rewrite Ha, Hb, Hda, Hdb. cbn [bind].
  destruct (negb (Bool.eqb (_sign A) (_sign B))); [reflexivity|].
  destruct (negb (a - b =? 0)); reflexivity.
Qed.

(** Deciding the comparisons of two booleans built from integer tests. *)
Ltac decide_comparisons :=
  repeat match goal with
         | |- context [?x =? ?y] => destruct (Z.eqb_spec x y)
         | |- context [?x >? ?y] => destruct (Z.gtb_spec x y)
         | |- context [?x <? ?y] => destruct (Z.ltb_spec x y)
         end;
  cbn [negb]; try reflexivity; try lia.

(** Whenever the four texts are integer literals, no two of [A.gt(B)],
    [A.equals(B)], [B.gt(A)] hold together. *)
Lemma comparison_at_most_one (A B : BigNumber) (a b da db : Z) :
  Js.BigInt (_value A) = Ok a -> Js.BigInt (_value B) = Ok b ->
  Js.BigInt (_decimal A) = Ok da -> Js.BigInt (_decimal B) = Ok db ->
  exists g1 g2,
    gt A B = Ok g1 /\ gt B A = Ok g2 /\ at_most_one g1 (equals A B) g2 = true.
Proof.
  intros Ha Hb Hda Hdb.
  rewrite (gt_eval A B a b da db), (gt_eval B A b a db da) by assumption.
  do 2 eexists. split; [reflexivity|]. split; [reflexivity|].
  unfold equals.
  destruct (String.eqb_spec (_value A) (_value B)) as [Hv|Hv].
  - rewrite Hv, Hb in Ha. injection Ha as <-.
    destruct (String.eqb_spec (_decimal A) (_decimal B)) as [Hd|Hd].
    + rewrite Hd, Hdb in Hda. injection Hda as <-.
      destruct (_sign A), (_sign B); cbn [Bool.eqb negb andb]; decide_comparisons.
    + destruct (_sign A), (_sign B); cbn [Bool.eqb negb andb]; decide_comparisons.
  - destruct (_sign A), (_sign B); cbn [Bool.eqb negb andb]; decide_comparisons.
Qed.

Lemma canonical_fields (x : BigNumber) :
  canonical x = true ->
  canonical_digits (_value x) = true
  /\ all_digits (_decimal x) = true
  /\ String.length (_decimal x) = PRECISION_BYTES.
Proof.
  unfold canonical. intro H.
  apply andb_true_iff in H. destruct H as [H H3].
  apply andb_true_iff in H. destruct H as [H1 H2].
  apply Nat.eqb_eq in H3. auto.
Qed.

(** C4 (counterexample).  7 written as "007" and as "7": neither is greater
    and they are not [equals]-equal, so none of the three holds. *)
Lemma leading_zeros_break_trichotomy :
  exists a b,
    fromString "007" = Ok a /\ fromString "7" = Ok b
    /\ gt a b = Ok false /\ equals a b = false /\ gt b a = Ok false.
Proof.
  do 2 eexists. repeat split; vm_compute; reflexivity.
Qed.

(** C4 (amended).  Exactly one of [A.gt(B)], [A.equals(B)], [B.gt(A)] holds
    for all A and B whose integer texts are canonical (at least one digit,
    no redundant leading zero) and whose fraction fields are 18 digits.
    [equals] compares the stored texts and [gt] the numbers, so for equal
    numbers written differently ("007" and "7", "" and "0") none of the
    three holds; positive and negative zero are not equal, and positive
    zero is the greater. *)
Theorem comparison_trichotomy_on_canonical_text (A B : BigNumber)
    (HA : canonical A = true) (HB : canonical B = true) :
  (exists g1 g2,
     gt A B = Ok g1 /\ gt B A = Ok g2
     /\ exactly_one g1 (equals A B) g2 = true)
  /\ compare_report "007" "7" = Ok (false, false, false)
  /\ compare_report ".5" "0.5" = Ok (false, false, false)
  /\ compare_report "0.0" "-0.0" = Ok (true, false, false)
  /\ compare_report "7" "7.0" = Ok (false, true, false).
Proof.
  split; [|repeat split; vm_compute; reflexivity].
  destruct (canonical_fields A HA) as (HvA & HdA & HlA).
  destruct (canonical_fields B HB) as (HvB & HdB & HlB).
  pose proof (BigInt_digits _ (canonical_digits_all _ HvA)) as Ea.
  pose proof (BigInt_digits _ (canonical_digits_all _ HvB)) as Eb.
  pose proof (BigInt_digits _ HdA) as Eda.
  pose proof (BigInt_digits _ HdB) as Edb.
  rewrite (gt_eval A B _ _ _ _ Ea Eb Eda Edb), (gt_eval B A _ _ _ _ Eb Ea Edb Eda).
  do 2 eexists. split; [reflexivity|]. split; [reflexivity|].
  unfold equals.
  assert (Hv : String.eqb (_value A) (_value B)
               = (num (_value A) =? num (_value B))).
  { destruct (Z.eqb_spec (num (_value A)) (num (_value B))) as [E|E].
    - rewrite (canonical_digits_inj _ _ HvA HvB E). apply String.eqb_refl.
    - apply String.eqb_neq. intro F. apply E. rewrite F. reflexivity. }
  assert (Hd : String.eqb (_decimal A) (_decimal B)
               = (num (_decimal A) =? num (_decimal B))).
  { destruct (Z.eqb_spec (num (_decimal A)) (num (_decimal B))) as [E|E].
    - rewrite (num_inj_same_length _ _ HdA HdB (eq_trans HlA (eq_sym HlB)) E).
      apply String.eqb_refl.
    - apply String.eqb_neq. intro F. apply E. rewrite F. reflexivity. }
  rewrite Hv, Hd.
  destruct (_sign A), (_sign B); cbn [Bool.eqb negb andb]; decide_comparisons.
Qed.

Lemma comparison_trichotomy_on_canonical_text_witness :
  exists g1 g2,
    gt (mkBigNumber true "7" "500000000000000000")
       (mkBigNumber false "12" "000000000000000000") = Ok g1
    /\ gt (mkBigNumber false "12" "000000000000000000")
          (mkBigNumber true "7" "500000000000000000") = Ok g2
    /\ exactly_one g1
         (equals (mkBigNumber true "7" "500000000000000000")
                 (mkBigNumber false "12" "000000000000000000")) g2 = true.
Proof.
  apply (comparison_trichotomy_on_canonical_text
           (mkBigNumber true "7" "500000000000000000")
           (mkBigNumber false "12" "000000000000000000"));
    vm_compute; reflexivity.
Defined.

(* ------------------------------------------------------------------ *)
(** ** Scientific notation *)

(** *** Text lemmas *)

Lemma includes_append (c : ascii) (s t : string) :
  Js.includes c (s ++ t) = Js.includes c s || Js.includes c t.
Proof.
  induction s as [|a s IH]; simpl; [reflexivity|].
  rewrite IH. apply orb_assoc.
Qed.

Lemma replace_absent (c : ascii) (by_ s : string) :
  Js.includes c s = false -> Js.replace c by_ s = s.
Proof.
  induction s as [|a s IH]; simpl; [reflexivity|].
  intro H. apply orb_false_iff in H. destruct H as [Ha Hs].
  rewrite Ha, (IH Hs). reflexivity.
Qed.

Lemma split_absent (sep : ascii) (s : string) :
  Js.includes sep s = false -> Js.split sep s = [s].
Proof.
  induction s as [|a s IH]; simpl; [reflexivity|].
  intro H. apply orb_false_iff in H. destruct H as [Ha Hs].
  rewrite Ha, (IH Hs). reflexivity.
Qed.

Lemma split_at_first (sep : ascii) (m r : string) :
  Js.includes sep m = false ->
  Js.split sep (m ++ String sep r) = m :: Js.split sep r.
Proof.
  induction m as [|a m IH]; simpl.
  - intros _. rewrite Ascii.eqb_refl. reflexivity.
  - intro H. apply orb_false_iff in H. destruct H as [Ha Hm].
    rewrite Ha, (IH Hm). reflexivity.
Qed.

Lemma digits_exclude (c : ascii) (s : string) :
  Js.is_digit c = false -> all_digits s = true -> Js.includes c s = false.
Proof.
  intros Hc. induction s as [|a s IH]; simpl; [reflexivity|].
  intro H. apply andb_true_iff in H. destruct H as [Ha Hs].
  rewrite (IH Hs), orb_false_r.
  destruct (Ascii.eqb_spec a c) as [->|]; [congruence | reflexivity].
Qed.

Lemma zeros_exclude (c : ascii) (n : nat) :
  Ascii.eqb "0" c = false -> Js.includes c (Js.zeros n) = false.
Proof.
  intro H. induction n as [|n IH]; cbn [Js.includes Js.zeros]; [reflexivity|].
  rewrite H, IH. reflexivity.
Qed.

(** *** [parseInt] on a run of digits *)

Lemma hex_val_digit (a : ascii) :
  Js.is_digit a = true -> Js.hex_val a = Some (Js.digit_val a).
Proof.
  unfold Js.is_digit, Js.hex_val, Js.digit_val. intro H. rewrite H. reflexivity.
Qed.

Lemma leading_digits_10 (s : string) :
  all_digits s = true ->
  forall acc,
    Js.leading_digits 10 (Some acc) s
    = Some (acc * 10 ^ Z.of_nat (String.length s) + num s).
Proof.
  induction s as [|a r IH]; intros Hd acc.
  - simpl. f_equal. change (num "") with 0. lia.
  - pose proof (num_cons a r Hd) as Hn.
    simpl in Hd. apply andb_true_iff in Hd. destruct Hd as [Ha Hr].
    cbn [Js.leading_digits]. rewrite (hex_val_digit a Ha).
    pose proof (digit_val_range a Ha) as Hrange.
    destruct (Z.ltb_spec (Js.digit_val a) 10) as [_|?]; [|lia].
    rewrite (IH Hr). f_equal.
    rewrite Hn. cbn [String.length]. rewrite Nat2Z.inj_succ, Z.pow_succ_r by lia. ring.
Qed.

Lemma leading_digits_10_start (s : string) :
  all_digits s = true -> s <> "" ->
  Js.leading_digits 10 None s = Some (num s).
Proof.
  intros Hd Hne. destruct s as [|a r]; [contradiction|].
  pose proof (num_cons a r Hd) as Hn.
  simpl in Hd. apply andb_true_iff in Hd. destruct Hd as [Ha Hr].
  cbn [Js.leading_digits]. rewrite (hex_val_digit a Ha).
  pose proof (digit_val_range a Ha) as Hrange.
  destruct (Z.ltb_spec (Js.digit_val a) 10) as [_|?]; [|lia].
  rewrite (leading_digits_10 r Hr). f_equal. rewrite Hn. ring.
Qed.

(** The choice of radix: a run of digits never starts with "0x". *)
Lemma radix_of_digits (u : string) :
  all_digits u = true -> u <> "" -> Js.radix_digits u = Some (num u).
Proof.
  intros Hd Hne. rewrite <- (leading_digits_10_start u Hd Hne).
  destruct u as [|a r]; [reflexivity|].
  simpl in Hd. apply andb_true_iff in Hd. destruct Hd as [Ha Hr].
  destruct a as [[|] [|] [|] [|] [|] [|] [|] [|]];
    try (cbv in Ha; discriminate); try reflexivity.
  destruct r as [|b r]; [reflexivity|].
  simpl in Hr. apply andb_true_iff in Hr. destruct Hr as [Hb _].
  destruct b as [[|] [|] [|] [|] [|] [|] [|] [|]];
    try (cbv in Hb; discriminate); reflexivity.
Qed.

Lemma digit_head (a : ascii) (r : string) :
  Js.is_digit a = true ->
  Js.skip_spaces (String a r) = String a r
  /\ Js.split_sign (String a r) = (false, String a r).
Proof.
  intro Ha.
  destruct a as [[|] [|] [|] [|] [|] [|] [|] [|]];
    try (cbv in Ha; discriminate); split; reflexivity.
Qed.

Lemma parseInt_digits (ex : string) :
  all_digits ex = true -> ex <> "" -> Js.parseInt ex = Some (num ex).
Proof.
  intros Hd Hne. pose proof (radix_of_digits ex Hd Hne) as Hr.
  destruct ex as [|a r]; [contradiction|].
  pose proof Hd as Hd'. simpl in Hd'. apply andb_true_iff in Hd'.
  destruct Hd' as [Ha _].
  destruct (digit_head a r Ha) as [Hsk Hsg].
  unfold Js.parseInt. rewrite Hsk, Hsg, Hr. reflexivity.
Qed.

Lemma parseInt_minus_digits (ex : string) :
  all_digits ex = true -> ex <> "" ->
  Js.parseInt (String "-" ex) = Some (- num ex).
Proof.
  intros Hd Hne. pose proof (radix_of_digits ex Hd Hne) as Hr.
  unfold Js.parseInt.
  change (Js.skip_spaces (String "-" ex)) with (String "-" ex).
  change (Js.split_sign (String "-" ex)) with (true, ex).
  cbv beta iota. rewrite Hr. reflexivity.
Qed.

(** *** Widening *)

Lemma fromString_normalised (s t : string) :
  normalised s = normalised t -> fromString s = fromString t.
Proof.
  unfold fromString, normalised. intros ->. reflexivity.
Qed.

Lemma normalised_plain (s : string) :
  Js.includes "," s = false -> Js.includes "e" s = false -> normalised s = s.
Proof.
  intros Hc He. unfold normalised, widenScientificNotation.
  rewrite (replace_absent _ _ _ Hc), He. reflexivity.
Qed.

Lemma or_else_self (m : string) : or_else (Some m) "" = m.
Proof. destruct m; reflexivity. Qed.

Lemma num_nonneg (s : string) : all_digits s = true -> 0 <= num s.
Proof. intro H. destruct (digits_val_acc s H 0) as [_ B]. lia. Qed.

(** Non-negative exponent: the separator is dropped and [k] zeros are
    appended. *)
Lemma widen_nonneg (mant ex : string) :
  Js.includes "e" mant = false ->
  all_digits ex = true -> ex <> "" ->
  widenScientificNotation (mant ++ "e" ++ ex)
  = Js.replace "." "" mant ++ Js.zeros (Z.to_nat (num ex)).
Proof.
  intros Hme Hex Hne. unfold widenScientificNotation.
  change (mant ++ "e" ++ ex) with (mant ++ String "e" ex).
  assert (Hee : Js.includes "e" ex = false) by (apply digits_exclude; [reflexivity | exact Hex]).
  rewrite includes_append. cbn [Js.includes]. rewrite Ascii.eqb_refl, orb_true_r.
  cbn [negb orb].
  rewrite (split_at_first _ _ _ Hme), (split_absent _ _ Hee).
  cbn [nth_error]. rewrite or_else_self.
  assert (Hor : or_else (Some ex) "0" = ex) by (destruct ex; [contradiction | reflexivity]).
  rewrite Hor, (parseInt_digits ex Hex Hne). cbn [number_ltb].
  pose proof (num_nonneg ex Hex).
  destruct (Z.ltb_spec (num ex) 0); [lia | reflexivity].
Qed.

(** Negative exponent [-k]: "0." and [k - 1] zeros are put in front of the
    mantissa's digits. *)
Lemma widen_neg (mant ex : string) :
  Js.includes "e" mant = false ->
  all_digits ex = true -> ex <> "" -> 1 <= num ex ->
  widenScientificNotation (mant ++ "e-" ++ ex)
  = "0." ++ Js.zeros (Z.to_nat (num ex - 1)) ++ Js.replace "." "" mant.
Proof.
  intros Hme Hex Hne Hk. unfold widenScientificNotation.
  change (mant ++ "e-" ++ ex) with (mant ++ String "e" (String "-" ex)).
  assert (Hee : Js.includes "e" (String "-" ex) = false).
  { cbn [Js.includes]. rewrite (digits_exclude "e" ex); reflexivity || assumption. }
  rewrite includes_append. cbn [Js.includes]. rewrite Ascii.eqb_refl, orb_true_r.
  cbn [negb orb].
  rewrite (split_at_first _ _ _ Hme), (split_absent _ _ Hee).
  cbn [nth_error]. rewrite or_else_self.
  change (or_else (Some (String "-" ex)) "0") with (String "-" ex).
  rewrite (parseInt_minus_digits ex Hex Hne). cbn [number_ltb].
  destruct (Z.ltb_spec (- num ex) 0); [|lia].
  do 3 f_equal. lia.
Qed.

(** Text with "E" in it never passes [/^[\d.]+$/]. *)
Lemma upper_E_fails_the_test (s : string) :
  Js.includes "E" s = true -> Js.test_digits_dots s = false.
Proof.
  intro H.
  assert (Hall : Js.all_digit_or_dot s = false).
  { induction s as [|a s IH]; [discriminate|].
    cbn [Js.includes] in H. cbn [Js.all_digit_or_dot].
    destruct (Ascii.eqb_spec a "E") as [->|Hne].
    - reflexivity.
    - cbn [orb] in H. rewrite (IH H). apply andb_false_r. }
  destruct s; [reflexivity | exact Hall].
Qed.

Lemma includes_replace_comma (c : ascii) (s : string) :
  Ascii.eqb "," c = false -> Ascii.eqb "." c = false ->
  Js.includes c (Js.replace "," "." s) = Js.includes c s.
Proof.
  intros H1 H2. induction s as [|a s IH]; [reflexivity|].
  cbn [Js.replace Js.includes].
  destruct (Ascii.eqb_spec a ",") as [->|Hne].
  - change ("." ++ s) with (String "." s). cbn [Js.includes]. rewrite H1, H2. reflexivity.
  - cbn [Js.includes]. rewrite IH. reflexivity.
Qed.

(** Without a lowercase "e" nothing is widened, and an uppercase "E" is
    one more character that is neither a digit nor a dot. *)
Lemma upper_E_is_rejected (s : string) :
  Js.includes "e" s = false -> Js.includes "E" s = true ->
  fromString s = Throw ErrCannotParse.
Proof.
  intros He HE. unfold fromString, widenScientificNotation.
  rewrite (includes_replace_comma "e" s) by reflexivity. rewrite He. cbn [negb].
  pose proof (includes_replace_comma "E" s eq_refl eq_refl) as HE'.
  rewrite HE in HE'. set (t := Js.replace "," "." s) in *.
  destruct (2 <? List.length (Js.split "." t))%nat; [reflexivity|].
  assert (Hclean : Js.test_digits_dots
                     (if match t with String "-" _ => false | _ => true end
                      then t else Js.tail t) = false).
  { apply upper_E_fails_the_test.
    destruct t as [|a r]; [discriminate|].
    destruct (Ascii.eqb_spec a "-") as [->|Hne].
    - cbn [Js.tail]. exact HE'.
    - replace (match String a r with String "-" _ => false | _ => true end) with true;
        [exact HE'|].
      destruct a as [[|] [|] [|] [|] [|] [|] [|] [|]]; try reflexivity.
      contradiction Hne; reflexivity. }
  rewrite Hclean. reflexivity.
Qed.

Lemma digit_is_not (a c : ascii) :
  Js.is_digit a = true -> Js.is_digit c = false -> Ascii.eqb a c = false.
Proof.
  intros Ha Hc. destruct (Ascii.eqb_spec a c) as [->|]; [congruence | reflexivity].
Qed.

(** Absence of a character that is no digit from text made of digits,
    zeros and a few fixed characters. *)
Ltac absent :=
  repeat first
    [ reflexivity
    | assumption
    | rewrite includes_append
    | rewrite digits_exclude by (reflexivity || assumption)
    | rewrite zeros_exclude by reflexivity
    | rewrite digit_is_not by (reflexivity || assumption)
    | progress cbn [Js.includes orb String.append Ascii.eqb Bool.eqb] ].

(** C7 (counterexample).  The uppercase marker is not read: "2E6" raises
    the parse error where "2e6" parses as 2000000. *)
Lemma upper_case_marker_is_rejected :
  fromString "2E6" = Throw ErrCannotParse
  /\ show (fromString "2e6") = Ok "2000000.000000000000000000".
Proof. split; vm_compute; reflexivity. Qed.

(** C7 (amended).  With the lowercase marker "e": a mantissa [a.b] with one
    integer digit and a negative exponent [-k], [k >= 1], parses as the text
    "0." followed by [k - 1] zeros and the digits [ab], that is with the
    decimal point moved [k] places to the left ("1.5e-7" is 0.00000015); a
    mantissa without a fraction, signed or not, and a non-negative exponent
    [k] parses as the mantissa followed by [k] zeros ("2e6" is 2000000).
    Text with an uppercase "E" and no lowercase "e" is not widened and
    raises the parse error. *)
Theorem scientific_notation_with_lowercase_marker
    (a : ascii) (b m ex : string)
    (Ha : Js.is_digit a = true) (Hb : all_digits b = true)
    (Hm : all_digits m = true)
    (Hex : all_digits ex = true) (Hne : ex <> "") :
  (1 <= num ex ->
     fromString (String a ("." ++ b) ++ "e-" ++ ex)
     = fromString ("0." ++ Js.zeros (Z.to_nat (num ex - 1)) ++ String a b))
  /\ fromString (m ++ "e" ++ ex) = fromString (m ++ Js.zeros (Z.to_nat (num ex)))
  /\ fromString ("-" ++ m ++ "e" ++ ex)
     = fromString ("-" ++ m ++ Js.zeros (Z.to_nat (num ex)))
  /\ (forall s, Js.includes "e" s = false -> Js.includes "E" s = true ->
                fromString s = Throw ErrCannotParse)
  /\ show (fromString "1.5e-7") = Ok "0.000000150000000000"
  /\ show (fromString "2e6") = Ok "2000000.000000000000000000"
  /\ fromString "2E6" = Throw ErrCannotParse
  /\ fromString "1.5E-7" = Throw ErrCannotParse.
Proof.
  split.
  { intro Hk. apply fromString_normalised.
    rewrite (normalised_plain ("0." ++ Js.zeros (Z.to_nat (num ex - 1)) ++ String a b))
      by absent.
    unfold normalised. rewrite replace_absent by absent.
    change (String a ("." ++ b)) with (String a (String "." b)).
    rewrite (widen_neg (String a (String "." b)) ex) by (assumption || absent).
    do 2 f_equal. cbn [Js.replace].
    rewrite (digit_is_not a "." Ha eq_refl). rewrite Ascii.eqb_refl. reflexivity. }
  split.
  { apply fromString_normalised.
    rewrite (normalised_plain (m ++ Js.zeros (Z.to_nat (num ex)))) by absent.
    unfold normalised. rewrite replace_absent by absent.
    rewrite (widen_nonneg m ex) by (assumption || absent).
    rewrite replace_absent by absent. reflexivity. }
  split.
  { apply fromString_normalised.
    rewrite (normalised_plain ("-" ++ m ++ Js.zeros (Z.to_nat (num ex)))) by absent.
    unfold normalised. rewrite replace_absent by absent.
    change ("-" ++ m ++ "e" ++ ex) with (String "-" m ++ "e" ++ ex).
    rewrite (widen_nonneg (String "-" m) ex) by (assumption || absent).
    rewrite replace_absent by absent. reflexivity. }
  split; [exact upper_E_is_rejected|].
  repeat split; vm_compute; reflexivity.
Qed.

Lemma scientific_notation_with_lowercase_marker_witness :
  fromString "1.5e-7" = fromString "0.00000015".
Proof.
  refine (proj1 (scientific_notation_with_lowercase_marker "1" "5" "2" "7" _ _ _ _ _) _).
  - vm_compute. reflexivity.
  - vm_compute. reflexivity.
  - vm_compute. reflexivity.
  - vm_compute. reflexivity.
  - discriminate.
  - vm_compute. discriminate.
Defined.

(* ------------------------------------------------------------------ *)
(** ** The bound *)

(** *** Fractions that stand for zero *)

Lemma BigInt_unsigned (a : ascii) (r : string) :
  a <> "-"%char -> a <> "+"%char ->
  Js.BigInt (String a r)
  = match Js.digits_val 0 (String a r) with
    | Some n => Ok n
    | None => Throw JsSyntaxError
    end.
Proof.
  intros Hm Hp.
  destruct a as [[|] [|] [|] [|] [|] [|] [|] [|]];
    first [reflexivity | contradiction Hm; reflexivity | contradiction Hp; reflexivity].
Qed.

Lemma digits_val_zero (s : string) (acc : Z) :
  0 <= acc -> Js.digits_val acc s = Some 0 ->
  acc = 0 /\ s = Js.zeros (String.length s).
Proof.
  revert acc. induction s as [|a r IH]; intros acc Hacc H.
  - simpl in H. injection H as ->. auto.
  - cbn [Js.digits_val] in H. destruct (Js.is_digit a) eqn:Ha; [|discriminate].
    pose proof (digit_val_range a Ha) as Hr.
    destruct (IH (10 * acc + Js.digit_val a) ltac:(lia) H) as [H0 Hz].
    split; [lia|]. cbn [String.length Js.zeros]. f_equal; [|exact Hz].
    apply digit_val_inj; [exact Ha | reflexivity |].
    change (Js.digit_val "0") with 0. lia.
Qed.

Lemma digits_val_zeros (n : nat) : Js.digits_val 0 (Js.zeros n) = Some 0.
Proof. induction n as [|n IH]; [reflexivity | exact IH]. Qed.

(** A text that [BigInt] reads as zero is a run of zeros, possibly empty,
    or a sign followed by at least one zero. *)
Lemma zero_text_shape (d : string) :
  Js.BigInt d = Ok 0 ->
  d = Js.zeros (String.length d)
  \/ exists c n, (c = "-"%char \/ c = "+"%char) /\ d = String c (Js.zeros (S n)).
Proof.
  intro H. destruct d as [|a r]; [left; reflexivity|].
  destruct (Ascii.eqb_spec a "-") as [->|Hm]; [|destruct (Ascii.eqb_spec a "+") as [->|Hp]].
  - right. destruct r as [|b r]; [discriminate|].
    change (Js.BigInt (String "-" (String b r)))
      with (match Js.digits_val 0 (String b r) with
            | Some n => Ok (- n)
            | None => Throw JsSyntaxError
            end) in H.
    destruct (Js.digits_val 0 (String b r)) as [n|] eqn:E; [|discriminate].
    injection H as H. assert (n = 0) by lia. subst n.
    destruct (digits_val_zero _ 0 ltac:(lia) E) as [_ Hz].
    exists "-"%char, (String.length r). split; [auto|]. f_equal. exact Hz.
  - right. destruct r as [|b r]; [discriminate|].
    change (Js.BigInt (String "+" (String b r)))
      with (match Js.digits_val 0 (String b r) with
            | Some n => Ok n
            | None => Throw JsSyntaxError
            end) in H.
    destruct (Js.digits_val 0 (String b r)) as [n|] eqn:E; [|discriminate].
    injection H as ->.
    destruct (digits_val_zero _ 0 ltac:(lia) E) as [_ Hz].
    exists "+"%char, (String.length r). split; [auto|]. f_equal. exact Hz.
  - left. rewrite (BigInt_unsigned a r Hm Hp) in H.
    destruct (Js.digits_val 0 (String a r)) as [n|] eqn:E; [|discriminate].
    injection H as ->.
    destruct (digits_val_zero _ 0 ltac:(lia) E) as [_ Hz]. exact Hz.
Qed.

Lemma zeros_append (n k : nat) : Js.zeros n ++ Js.zeros k = Js.zeros (n + k).
Proof.
  induction n as [|n IH]; [reflexivity|]. cbn [Js.zeros String.append Nat.add].
  rewrite IH. reflexivity.
Qed.

Lemma BigInt_zeros (n : nat) : Js.BigInt (Js.zeros n) = Ok 0.
Proof.
  destruct n as [|n]; [reflexivity|].
  change (Js.BigInt (Js.zeros (S n)))
    with (match Js.digits_val 0 (Js.zeros (S n)) with
          | Some k => Ok k
          | None => Throw JsSyntaxError
          end).
  rewrite digits_val_zeros. reflexivity.
Qed.

Lemma BigInt_signed_zeros (c : ascii) (n : nat) :
  c = "-"%char \/ c = "+"%char -> Js.BigInt (String c (Js.zeros (S n))) = Ok 0.
Proof.
  intros [->| ->].
  - change (Js.BigInt (String "-" (Js.zeros (S n))))
      with (match Js.digits_val 0 (Js.zeros (S n)) with
            | Some k => Ok (- k)
            | None => Throw JsSyntaxError
            end).
    rewrite digits_val_zeros. reflexivity.
  - change (Js.BigInt (String "+" (Js.zeros (S n))))
      with (match Js.digits_val 0 (Js.zeros (S n)) with
            | Some k => Ok k
            | None => Throw JsSyntaxError
            end).
    rewrite digits_val_zeros. reflexivity.
Qed.

Lemma chars_zeros (n : nat) : Js.chars (Js.zeros n) = repeat "0" n.
Proof.
  induction n as [|n IH]; [reflexivity|]. cbn [Js.zeros Js.chars repeat].
  rewrite IH. reflexivity.
Qed.

Lemma join_repeat_zero (k : nat) : Js.join (repeat "0" k) = Js.zeros k.
Proof.
  induction k as [|k IH]; [reflexivity|]. cbn [repeat]. rewrite join_cons, IH.
  reflexivity.
Qed.

Lemma firstn_repeat_le (k n : nat) (x : string) :
  (k <= n)%nat -> firstn k (repeat x n) = repeat x k.
Proof.
  revert n. induction k as [|k IH]; intros n H; [reflexivity|].
  destruct n as [|n]; [lia|]. cbn [repeat firstn]. rewrite IH by lia. reflexivity.
Qed.

(** Cutting a run of more than [p] zeros, with or without a sign in front,
    keeps its first [p] characters. *)
Lemma roundString_zeros (n p : nat) :
  (p < n)%nat -> roundString (Js.zeros n) p = Js.zeros p.
Proof.
  intro H. unfold roundString. rewrite length_zeros.
  destruct (Nat.leb_spec n p) as [?|_]; [lia|].
  rewrite chars_zeros, (nth_error_repeat "0" H).
  change (number_ltb (Js.parseInt "0") 5) with true. cbv iota.
  rewrite firstn_repeat_le by lia. apply join_repeat_zero.
Qed.

Lemma roundString_signed_zeros (c : ascii) (n p : nat) :
  c = "-"%char \/ c = "+"%char -> (S p < S n)%nat ->
  roundString (String c (Js.zeros n)) (S p) = String c (Js.zeros p).
Proof.
  intros Hc H. unfold roundString. cbn [String.length]. rewrite length_zeros.
  destruct (Nat.leb_spec (S n) (S p)) as [?|_]; [lia|].
  cbn [Js.chars nth_error]. rewrite chars_zeros.
  rewrite (nth_error_repeat "0" (m:=n) (n:=p)) by lia.
  change (number_ltb (Js.parseInt "0") 5) with true. cbv iota.
  cbn [firstn]. rewrite firstn_repeat_le by lia.
  rewrite join_cons, join_repeat_zero. reflexivity.
Qed.

(** A fraction text that stands for zero is stored as a field that stands
    for zero, and causes no carry into the integer text. *)
Lemma stored_zero_fraction (sign : bool) (value decimal : string) (v : Z) :
  Js.BigInt decimal = Ok 0 ->
  _value (stored sign value decimal v) = value
  /\ Js.BigInt (_decimal (stored sign value decimal v)) = Ok 0.
Proof.
  intro Hz. unfold stored.
  destruct (Nat.leb_spec PRECISION_BYTES (String.length decimal)) as [Hlen|Hlen].
  - assert (Hround : String.length (roundString decimal PRECISION_BYTES) = PRECISION_BYTES
                     /\ Js.BigInt (roundString decimal PRECISION_BYTES) = Ok 0).
    { destruct (Nat.eq_dec (String.length decimal) PRECISION_BYTES) as [E|E].
      - unfold roundString. rewrite E, Nat.leb_refl. auto.
      - destruct (zero_text_shape decimal Hz) as [Hs|(c & n & Hc & Hs)].
        + rewrite Hs, roundString_zeros by lia.
          split; [apply length_zeros | apply BigInt_zeros].
        + subst decimal. cbn [String.length] in Hlen, E.
          rewrite length_zeros in Hlen, E. unfold PRECISION_BYTES in *.
          rewrite (roundString_signed_zeros c (S n) 17 Hc) by lia.
          split; [reflexivity | apply (BigInt_signed_zeros c 16 Hc)]. }
    destruct Hround as [Hl Hb]. rewrite Hl, Nat.ltb_irrefl. cbn [_value _decimal]. auto.
  - cbn [_value _decimal]. split; [reflexivity|]. unfold Js.padEnd0.
    destruct (zero_text_shape decimal Hz) as [Hs|(c & n & Hc & Hs)].
    + rewrite Hs at 1. rewrite zeros_append. apply BigInt_zeros.
    + rewrite Hs at 1. cbn [String.append]. rewrite zeros_append.
      apply (BigInt_signed_zeros c _ Hc).
Qed.

(** C9.  At magnitude 10^36 a construction succeeds when the fraction is
    zero, and the instance keeps the sign flag and the integer text with a
    fraction field that is zero; it fails with a range error when the
    fraction is not zero; above 10^36 it fails with a range error; all of
    this for either sign flag (the checks do not read it) and also when the
    bound is met by a negative integer text.  The sentinels themselves
    construct, one step beyond them does not. *)
Theorem bound_clamp (sign : bool) (value decimal : string) (v d : Z)
    (Hv : Js.BigInt value = Ok v) (Hd : Js.BigInt decimal = Ok d) :
  (Z.abs v = POSITIVE_INFINITY -> d = 0 ->
     exists x, new sign value decimal = Ok x /\ _sign x = sign
               /\ _value x = value /\ isInteger x = Ok true)
  /\ (Z.abs v = POSITIVE_INFINITY -> d <> 0 ->
        new sign value decimal = Throw (if 0 <=? v then ErrTooBig else ErrTooSmall))
  /\ (POSITIVE_INFINITY < Z.abs v ->
        new sign value decimal = Throw (if 0 <=? v then ErrTooBig else ErrTooSmall))
  /\ is_range_error ErrTooBig = true /\ is_range_error ErrTooSmall = true
  /\ show (fromBigInt POSITIVE_INFINITY)
     = Ok "1000000000000000000000000000000000000.000000000000000000"
  /\ show (fromBigInt NEGATIVE_INFINITY)
     = Ok "-1000000000000000000000000000000000000.000000000000000000"
  /\ fromBigInt (POSITIVE_INFINITY + 1) = Throw ErrTooBig
  /\ fromBigInt (NEGATIVE_INFINITY - 1) = Throw ErrTooBig
  /\ fromString "1000000000000000000000000000000000000.000000000000000001"
     = Throw ErrTooBig
  /\ fromString "-1000000000000000000000000000000000000.000000000000000001"
     = Throw ErrTooBig.
Proof.
  assert (Hpos : 0 < POSITIVE_INFINITY) by (vm_compute; reflexivity).
  assert (Hneg : NEGATIVE_INFINITY = - POSITIVE_INFINITY) by reflexivity.
  split.
  { intros Ha Hd0. exists (stored sign value decimal v). subst d.
    destruct (stored_zero_fraction sign value decimal v Hd) as [Hval Hfrac].
    split; [apply (new_ok_intro sign value decimal v 0 Hv Hd); lia|].
    split; [apply stored_sign|]. split; [exact Hval|].
    unfold isInteger. rewrite Hfrac. reflexivity. }
  split.
  { intros Ha Hd0. unfold new, Js.Number_isNaN. rewrite Hv, Hd.
    cbn [is_ok negb orb bind].
    destruct (Z.gtb_spec v POSITIVE_INFINITY) as [Hgt|Hle]; [lia|].
    destruct (Z.eqb_spec v POSITIVE_INFINITY) as [Heq|Hne]; cbn [bind].
    - destruct (Z.eqb_spec d 0) as [?|_]; [contradiction|]. cbn [negb].
      destruct (Z.leb_spec 0 v); [reflexivity | lia].
    - destruct (Z.ltb_spec v NEGATIVE_INFINITY) as [Hlt|Hge]; [lia|].
      destruct (Z.eqb_spec v NEGATIVE_INFINITY) as [Hen|Hnn]; [|lia]. cbn [bind].
      destruct (Z.eqb_spec d 0) as [?|_]; [contradiction|]. cbn [negb].
      destruct (Z.leb_spec 0 v); [lia | reflexivity]. }
  split.
  { intros Ha. unfold new, Js.Number_isNaN. rewrite Hv, Hd.
    cbn [is_ok negb orb bind].
    destruct (Z.gtb_spec v POSITIVE_INFINITY) as [Hgt|Hle]; cbn [bind].
    - destruct (Z.leb_spec 0 v); [reflexivity | lia].
    - destruct (Z.eqb_spec v POSITIVE_INFINITY) as [Heq|Hne]; [lia|]. cbn [bind].
      destruct (Z.ltb_spec v NEGATIVE_INFINITY) as [Hlt|Hge]; [|lia]. cbn [bind].
      destruct (Z.leb_spec 0 v); [lia | reflexivity]. }
  repeat split; vm_compute; reflexivity.
Qed.

Lemma bound_clamp_witness :
  exists x,
    new false "1000000000000000000000000000000000000" "000" = Ok x
    /\ _sign x = false
    /\ _value x = "1000000000000000000000000000000000000"
    /\ isInteger x = Ok true.
Proof.
  destruct (bound_clamp false "1000000000000000000000000000000000000" "000"
              (10 ^ 36) 0) as (Hok & _).
  - vm_compute. reflexivity.
  - vm_compute. reflexivity.
  - apply Hok; vm_compute; reflexivity.
Defined.
